(** * Ledger anchoring: the smart-contract manager of the Ethereum storage layer

    A shallow embedding of
    [packages/ethereum-storage/src/lib/smart-contract-manager.ts]
    (class [SmartContractManager]) and the properties of its submission,
    range-split retrieval and event-enrichment paths.

    Conventions.
    - JavaScript numbers that hold block numbers, timestamps, confirmation
      numbers and sizes are integers of [Z]; [Math.floor (x / 2)] is [x / 2]
      of [Z] (floor division).
    - A value that may be [undefined] is an [option].
    - A promise is the pair of the remote calls issued while it ran and the
      way it settled ([Returns], [Throws]) or did not ([Pending]).
    - The collaborators that live outside the file (the web3 contract
      objects, [EthereumBlocks], [GasPriceDefiner], [web3-utils]) are fields
      of the records the functions receive. *)

From Stdlib Require Import ZArith List String Ascii Bool Lia Sorted.
From Stdlib Require Import DecimalString DecimalPos.
Import ListNotations.
Local Open Scope string_scope.
Local Open Scope list_scope.
Local Open Scope Z_scope.

(* ------------------------------------------------------------------ *)
(** ** Errors *)

(** [`${n}`] for an integer. *)
Definition decimal (n : Z) : string := NilZero.string_of_int (Z.to_int n).

(** The errors the file throws, one constructor per [throw Error(...)]
    site, and [External] for what a collaborator rejected with (the string
    is that error's [toString()]). *)
Inductive error : Type :=
| External (text : string)
| NoAccountFound
| EthereumTransactionError (transactionError : string)
| MaximumConfirmationReached (e : error)
| ContentHashNotIndexed
| ToBlockBelowFromBlock (fromBlock toBlock : Z)
| EventIsIncorrect
| ErrorGettingBlockConfirmation (e : error)
| ErrorGettingBlockTimestamp (blockNumber : Z) (e : error)
| CannotGetBlockNumber (e : error)
| BlockHasNoNumber (block : string)
| TypeError (text : string).

(** [e.toString()]: ["Error: " + message] for the errors built with
    [Error(...)]. *)
Fixpoint toString (e : error) : string :=
  (match e with
   | External text => text
   | NoAccountFound => "Error: No account found"
   | EthereumTransactionError t => "Error: Ethereum transaction error:  " ++ t
   | MaximumConfirmationReached e' =>
       "Error: Maximum number of confirmation reached: " ++ toString e'
   | ContentHashNotIndexed => "Error: contentHash not indexed on ethereum"
   | ToBlockBelowFromBlock f t =>
       "Error: toBlock must be larger than fromBlock: fromBlock:" ++ decimal f
       ++ " toBlock:" ++ decimal t
   | EventIsIncorrect =>
       "Error: event is incorrect: doesn't have a hash or feesParameters"
   | ErrorGettingBlockConfirmation e' =>
       "Error: Error getting block confirmation number: " ++ toString e'
   | ErrorGettingBlockTimestamp n e' =>
       "Error: Error getting block " ++ decimal n ++ " timestamp: " ++ toString e'
   | CannotGetBlockNumber e' =>
       "Error: Cannot get the number of the block: " ++ toString e'
   | BlockHasNoNumber b => "Error: Block " ++ b ++ " has no number"
   | TypeError text => "TypeError: " ++ text
   end)%string.

(* ------------------------------------------------------------------ *)
(** ** Promises with a record of the remote calls *)

Inductive outcome (A : Type) : Type :=
| Returns (a : A)
| Throws (e : error)
| Pending.
Arguments Returns {A} a.
Arguments Throws {A} e.
Arguments Pending {A}.

(** The remote calls this file issues itself: the lookup of a tagged block
    and the range query of the storage contract's events.  A range query is
    recorded once for each call of the retried query ([Utils.retry] around
    [getPastEvents]): how many times [Utils.retry] sends it to the node is
    not recorded. *)
Inductive rpc : Type :=
| GetBlock (block : string)
| GetPastEvents (fromBlock toBlock : Z).

Definition async (A : Type) : Type := (list rpc * outcome A)%type.

Definition ret {A} (a : A) : async A := ([], Returns a).
Definition throw {A} (e : error) : async A := ([], Throws e).

Definition bind {A B} (m : async A) (k : A -> async B) : async B :=
  match m with
  | (t, Returns a) => let (t', r) := k a in (t ++ t', r)
  | (t, Throws e) => (t, Throws e)
  | (t, Pending) => (t, Pending)
  end.

(** A call that leaves no mark on the record ([await collaborator(...)]). *)
Definition await {A} (o : outcome A) : async A := ([], o).

(** A remote call that is recorded; [response] is what comes back. *)
Definition remote {A} (r : rpc) (response : A) : async A := ([r], Returns response).

Declare Scope async_scope.
Delimit Scope async_scope with async.
Notation "x <- m ;; k" := (bind m (fun x => k))
  (at level 61, m at next level, right associativity) : async_scope.
Local Open Scope async_scope.

(** [Promise.all [p1, p2]]: both promises are already running; the result
    is rejected as soon as one of them is, fulfilled when both are, and
    stays pending otherwise.  When both reject, the first one's error is
    kept. *)
Definition promiseAll {A B} (p1 : async A) (p2 : async B) : async (A * B) :=
  let (t1, r1) := p1 in
  let (t2, r2) := p2 in
  (t1 ++ t2,
   match r1, r2 with
   | Returns a, Returns b => Returns (a, b)
   | Throws e, _ => Throws e
   | _, Throws e => Throws e
   | _, _ => Pending
   end).

Definition trace {A} (m : async A) : list rpc := fst m.
Definition result {A} (m : async A) : outcome A := snd m.

(** [try { await o } catch (e) { throw wrap(e) }]. *)
Definition rethrow {A} (wrap : error -> error) (o : outcome A) : outcome A :=
  match o with
  | Throws e => Throws (wrap e)
  | _ => o
  end.

(* ------------------------------------------------------------------ *)
(** ** The overflow pattern

    [MORE_THAN_XXX_RESULTS_REGEX =
       new RegExp('query returned more than [1-9][0-9]* results')],
    used through [e.toString().match(...)]: an unanchored search. *)

Fixpoint dropPrefix (p s : string) : option string :=
  match p, s with
  | EmptyString, _ => Some s
  | String c p', String d s' => if Ascii.eqb c d then dropPrefix p' s' else None
  | String _ _, EmptyString => None
  end.

Definition isDigit (c : ascii) : bool :=
  let n := nat_of_ascii c in (48 <=? n)%nat && (n <=? 57)%nat.

Definition isNonZeroDigit (c : ascii) : bool :=
  let n := nat_of_ascii c in (49 <=? n)%nat && (n <=? 57)%nat.

(** [[0-9]*]: what follows is a space, so the longest run of digits is the
    only one that can match. *)
Fixpoint dropDigits (s : string) : string :=
  match s with
  | String c s' => if isDigit c then dropDigits s' else s
  | EmptyString => s
  end.

Definition matchHere (s : string) : bool :=
  match dropPrefix "query returned more than " s with
  | Some (String c rest) =>
      isNonZeroDigit c &&
      match dropPrefix " results" (dropDigits rest) with
      | Some _ => true
      | None => false
      end
  | _ => false
  end.

Fixpoint MORE_THAN_XXX_RESULTS_REGEX (s : string) : bool :=
  matchHere s ||
  match s with
  | EmptyString => false
  | String _ s' => MORE_THAN_XXX_RESULTS_REGEX s'
  end.

Definition CREATING_ETHEREUM_METADATA_MAX_ATTEMPTS : Z := 23.


(* ------------------------------------------------------------------ *)
(** ** Data *)

(** [event.returnValues] of a [NewHash] log; either field can be absent. *)
Record ReturnValues : Type := {
  hash : option string;
  feesParameters : option string
}.

(** A raw event as [getPastEvents] returns it. *)
Record Event : Type := {
  blockNumber : Z;
  event : string;
  returnValues : option ReturnValues;
  transactionHash : string
}.

(** [StorageTypes.IFeesParameters]. *)
Record IFeesParameters : Type := { contentSize : Z }.

(** [StorageTypes.IEthereumMetadata]. *)
Module Meta.
Record t : Type := {
  blockConfirmation : Z;
  blockNumber : Z;
  blockTimestamp : Z;
  cost : option string;
  fee : option string;
  gasFee : option string;
  networkName : string;
  smartContractAddress : string;
  transactionHash : string
}.
End Meta.

(** What [checkAndAddMetaDataToEvent] returns. *)
Module Entry.
Record t : Type := {
  feesParameters : IFeesParameters;
  hash : string;
  meta : Meta.t
}.
End Entry.

(** A block object of the provider; a pending block has no [number]. *)
Record Block : Type := {
  number : option Z;
  timestamp : option Z
}.

(** [StorageTypes.IBlockNumbersInterval]. *)
Record IBlockNumbersInterval : Type := {
  blockBefore : Z;
  blockAfter : Z
}.

(** [StorageTypes.ITimestampBoundaries]. *)
Record ITimestampBoundaries : Type := {
  from : option Z;
  to : option Z
}.

(** [number | string]: a block number or a describer such as ["latest"]. *)
Inductive NumberOrString : Type :=
| BlockNumber (n : Z)
| BlockTag (describer : string).

(** What a call of a collaborator ends with: its value, or the
    [toString()] of the error it rejects with.  Every remote call is raced
    against a timeout (and retried by [Utils.retry]), so it ends. *)
Inductive reply (A : Type) : Type :=
| Answers (a : A)
| Fails (text : string).
Arguments Answers {A} a.
Arguments Fails {A} text.

(** [await] of such a call. *)
Definition call {A} (r : reply A) : outcome A :=
  match r with
  | Answers a => Returns a
  | Fails text => Throws (External text)
  end.

(** The transaction receipt handed to the confirmation callback. *)
Module Receipt.
Record t : Type := {
  gasUsed : Z;
  blockNumber : Z;
  transactionHash : string
}.
End Receipt.

(** [EthereumBlocks] ([./ethereum-blocks]), through the four methods this
    file calls. *)
Record EthereumBlocks : Type := {
  getBlock : string -> reply (option Block);
  getConfirmationNumber : Z -> reply Z;
  getBlockTimestamp : Z -> reply Z;
  getBlockNumbersFromTimestamp : Z -> reply IBlockNumbersInterval
}.

(** The manager: the fields of the class that the methods below read, and
    the calls of its collaborators.
    - [getPastEvents fromBlock toBlock] is
      [requestHashStorage.getPastEvents({event: 'NewHash', fromBlock, toBlock})]
      as seen through [Utils.retry] and the timeout race;
    - [getAccounts] is [eth.getAccounts()] raced against the timeout;
    - [getFeesAmount] is [requestHashSubmitter.methods.getFeesAmount(size).call()]
      raced against the timeout;
    - [getGasPrice] is [gasPriceDefiner.getGasPrice(FAST, networkName)];
    - [hexToNumber] is [web3Utils.hexToNumber]. *)
Record SmartContractManager : Type := {
  getPastEvents : Z -> Z -> reply (list Event);
  getAccounts : reply (list string);
  getFeesAmount : Z -> reply Z;
  getGasPrice : reply Z;
  hexToNumber : string -> reply Z;
  ethereumBlocks : EthereumBlocks;
  networkName : string;
  hashStorageAddress : string;
  creationBlockNumberHashStorage : Z
}.

(** The same manager at a later moment, when the block service answers
    differently. *)
Definition withBlocks (this : SmartContractManager) (blocks : EthereumBlocks)
  : SmartContractManager :=
  {| getPastEvents := getPastEvents this;
     getAccounts := getAccounts this;
     getFeesAmount := getFeesAmount this;
     getGasPrice := getGasPrice this;
     hexToNumber := hexToNumber this;
     ethereumBlocks := blocks;
     networkName := networkName this;
     hashStorageAddress := hashStorageAddress this;
     creationBlockNumberHashStorage := creationBlockNumberHashStorage this |}.

(* ------------------------------------------------------------------ *)
(** ** Methods *)

(** [getMainAccount]: [accounts[0]], or ['No account found'] when the list
    is empty or its first entry is falsy. *)
Definition getMainAccount (this : SmartContractManager) : async string :=
  accounts <- await (call (getAccounts this)) ;;
  match accounts with
  | [] => throw NoAccountFound
  | account :: _ =>
      if String.eqb account "" then throw NoAccountFound else ret account
  end.

(** [createEthereumMetaData]. *)
Definition createEthereumMetaData (this : SmartContractManager)
    (blockNumber : Z) (transactionHash : string)
    (cost fee gasFee : option string) : async Meta.t :=
  blockConfirmation <-
    await (rethrow ErrorGettingBlockConfirmation
             (call (getConfirmationNumber (ethereumBlocks this) blockNumber))) ;;
  blockTimestamp <-
    await (rethrow (ErrorGettingBlockTimestamp blockNumber)
             (call (getBlockTimestamp (ethereumBlocks this) blockNumber))) ;;
  ret {| Meta.blockConfirmation := blockConfirmation;
         Meta.blockNumber := blockNumber;
         Meta.blockTimestamp := blockTimestamp;
         Meta.cost := cost;
         Meta.fee := fee;
         Meta.gasFee := gasFee;
         Meta.networkName := networkName this;
         Meta.smartContractAddress := hashStorageAddress this;
         Meta.transactionHash := transactionHash |}.

(** [getBlockNumberFromNumberOrString].  [!blockObject || !blockObject.number]
    holds for a missing block, a missing number and the number [0]. *)
Definition getBlockNumberFromNumberOrString (this : SmartContractManager)
    (block : NumberOrString) : async Z :=
  match block with
  | BlockNumber n => ret n
  | BlockTag describer =>
      response <-
        remote (GetBlock describer) (getBlock (ethereumBlocks this) describer) ;;
      blockObject <- await (rethrow CannotGetBlockNumber (call response)) ;;
      match blockObject with
      | None => throw (BlockHasNoNumber describer)
      | Some b =>
          match number b with
          | None => throw (BlockHasNoNumber describer)
          | Some n =>
              if n =? 0 then throw (BlockHasNoNumber describer) else ret n
          end
      end
  end.

(** [Utils.flatten2DimensionsArray] on the two halves. *)
Definition flatten2DimensionsArray {A} (halves : list A * list A) : list A :=
  fst halves ++ snd halves.

(** [recursiveGetPastEvents].  The recursion of the source has no measure
    that decreases on every call, so the embedding counts the nesting of the
    calls: with [fuel] used up the promise is still [Pending]. *)
Fixpoint recursiveGetPastEvents (this : SmartContractManager) (fuel : nat)
    (fromBlock : Z) (toBlock : NumberOrString) : async (list Event) :=
  match fuel with
  | O => ([], Pending)
  | S fuel' =>
      toBlockNumber <- getBlockNumberFromNumberOrString this toBlock ;;
      response <-
        remote (GetPastEvents fromBlock toBlockNumber)
          (getPastEvents this fromBlock toBlockNumber) ;;
      match response with
      | Answers events => ret events
      | Fails e =>
          if MORE_THAN_XXX_RESULTS_REGEX e then
            let intervalHalf := (fromBlock + toBlockNumber) / 2 in
            let eventsFirstHalfPromise :=
              recursiveGetPastEvents this fuel' fromBlock (BlockNumber intervalHalf) in
            let eventsSecondHalfPromise :=
              recursiveGetPastEvents this fuel' (intervalHalf + 1)
                (BlockNumber toBlockNumber) in
            halves <- promiseAll eventsFirstHalfPromise eventsSecondHalfPromise ;;
            ret (flatten2DimensionsArray halves)
          else throw (External e)
      end
  end.

(** [checkAndAddMetaDataToEvent]. *)
Definition checkAndAddMetaDataToEvent (this : SmartContractManager)
    (ev : Event) : async Entry.t :=
  match returnValues ev with
  | None => throw EventIsIncorrect
  | Some values =>
      match hash values, feesParameters values with
      | Some h, Some fp =>
          contentSize <- await (call (hexToNumber this fp)) ;;
          meta <- createEthereumMetaData this (blockNumber ev)
                    (transactionHash ev) None None None ;;
          ret {| Entry.feesParameters := {| contentSize := contentSize |};
                 Entry.hash := h;
                 Entry.meta := meta |}
      | _, _ => throw EventIsIncorrect
      end
  end.

(** [Bluebird.map] with the default, unbounded concurrency: every mapper
    call is started, and the result settles as [Promise.all] does. *)
Fixpoint bluebirdMap {A B} (mapper : A -> async B) (items : list A)
  : async (list B) :=
  match items with
  | [] => ret []
  | item :: rest =>
      both <- promiseAll (mapper item) (bluebirdMap mapper rest) ;;
      ret (fst both :: snd both)
  end.

(** [toBlock || 'latest']: [undefined], [0] and [''] give ['latest']. *)
Definition orLatest (toBlock : option NumberOrString) : NumberOrString :=
  match toBlock with
  | None => BlockTag "latest"
  | Some (BlockNumber n) => if n =? 0 then BlockTag "latest" else BlockNumber n
  | Some (BlockTag s) => if String.eqb s "" then BlockTag "latest" else BlockTag s
  end.

(** [getHashesAndSizesFromEvents]. *)
Definition getHashesAndSizesFromEvents (this : SmartContractManager)
    (fuel : nat) (fromBlock : Z) (toBlock : option NumberOrString)
  : async (list Entry.t) :=
  let fromBlock :=
    if fromBlock <? creationBlockNumberHashStorage this
    then creationBlockNumberHashStorage this
    else fromBlock in
  let toBlock := orLatest toBlock in
  events <- recursiveGetPastEvents this fuel fromBlock toBlock ;;
  let events := filter (fun eventItem => String.eqb (event eventItem) "NewHash") events in
  bluebirdMap (checkAndAddMetaDataToEvent this) events.

(** A JavaScript condition on a number that may be [undefined]: [undefined]
    and [0] are falsy. *)
Definition truthy (x : option Z) : option Z :=
  match x with
  | Some n => if n =? 0 then None else Some n
  | None => None
  end.

(** The first part of [getHashesAndSizesFromEthereum]: the block range of
    the timestamp boundaries.  [fromBlock] starts at the creation block and
    [toBlock] as [undefined]; a boundary is looked up when [options] is given
    and the boundary is truthy. *)
Definition resolveBoundaries (this : SmartContractManager)
    (options : option ITimestampBoundaries) : async (Z * option Z) :=
  fromBlock <-
    match truthy (match options with Some o => from o | None => None end) with
    | Some optionsFrom =>
        optionFromBlockNumbers <-
          await (call (getBlockNumbersFromTimestamp (ethereumBlocks this) optionsFrom)) ;;
        ret (blockAfter optionFromBlockNumbers)
    | None => ret (creationBlockNumberHashStorage this)
    end ;;
  toBlock <-
    match truthy (match options with Some o => to o | None => None end) with
    | Some optionsTo =>
        optionToBlockNumbers <-
          await (call (getBlockNumbersFromTimestamp (ethereumBlocks this) optionsTo)) ;;
        ret (Some (blockBefore optionToBlockNumbers))
    | None => ret None
    end ;;
  ret (fromBlock, toBlock).

(** [getHashesAndSizesFromEthereum]: the guard is
    [if (toBlock && toBlock < fromBlock) throw ...]. *)
Definition getHashesAndSizesFromEthereum (this : SmartContractManager)
    (fuel : nat) (options : option ITimestampBoundaries)
  : async (list Entry.t) :=
  range <- resolveBoundaries this options ;;
  let fromBlock := fst range in
  let toBlock := snd range in
  match truthy toBlock with
  | Some t =>
      if t <? fromBlock then throw (ToBlockBelowFromBlock fromBlock t)
      else getHashesAndSizesFromEvents this fuel fromBlock (option_map BlockNumber toBlock)
  | None =>
      getHashesAndSizesFromEvents this fuel fromBlock (option_map BlockNumber toBlock)
  end.

(** [events.find(element => element.returnValues.hash === contentHash)]:
    reading [hash] of an absent [returnValues] is a [TypeError]. *)
Fixpoint findByHash (contentHash : string) (events : list Event)
  : outcome (option Event) :=
  match events with
  | [] => Returns None
  | element :: rest =>
      match returnValues element with
      | None => Throws (TypeError "Cannot read property 'hash' of undefined")
      | Some values =>
          match hash values with
          | Some h =>
              if String.eqb h contentHash then Returns (Some element)
              else findByHash contentHash rest
          | None => findByHash contentHash rest
          end
      end
  end.

(** [getMetaFromEthereum]. *)
Definition getMetaFromEthereum (this : SmartContractManager) (fuel : nat)
    (contentHash : string) : async Meta.t :=
  events <- recursiveGetPastEvents this fuel
              (creationBlockNumberHashStorage this) (BlockTag "latest") ;;
  found <- await (findByHash contentHash events) ;;
  match found with
  | None => throw ContentHashNotIndexed
  | Some ev =>
      createEthereumMetaData this (blockNumber ev) (transactionHash ev)
        None None None
  end.

(* ------------------------------------------------------------------ *)
(** ** Submission

    [addHashAndSizeToEthereum] returns [new Promise((resolve, reject) => ...)]
    whose executor sends the transaction and registers two callbacks.  What
    the transaction emitter and the block service do afterwards is a list of
    signals:
    - [OnError]: the ['error'] event;
    - [OnConfirmation]: the ['confirmation'] event;
    - [MetadataSettled n blocks]: the [createEthereumMetaData] promise that
      the callback of confirmation [n] started settles, having talked to the
      block service in the state [blocks]; its [then] or [catch] callback
      runs. *)

Inductive signal : Type :=
| OnError (transactionError : string)
| OnConfirmation (confirmationNumber : Z) (receiptAfterConfirmation : Receipt.t)
| MetadataSettled (confirmationNumber : Z) (blocks : EthereumBlocks).

(** A JavaScript promise: [resolve] and [reject] act on an unsettled promise
    only. *)
Inductive promise (A : Type) : Type :=
| Unsettled
| Resolved (a : A)
| Rejected (e : error).
Arguments Unsettled {A}.
Arguments Resolved {A} a.
Arguments Rejected {A} e.

Definition resolve {A} (p : promise A) (a : A) : promise A :=
  match p with
  | Unsettled => Resolved a
  | _ => p
  end.

Definition reject {A} (p : promise A) (e : error) : promise A :=
  match p with
  | Unsettled => Rejected e
  | _ => p
  end.

Definition isSettled {A} (p : promise A) : bool :=
  match p with
  | Unsettled => false
  | _ => true
  end.

(** The state the callbacks share: the flag of the closure, the promise
    under construction, and the metadata constructions in flight (each with
    the confirmation number and the receipt its callbacks captured). *)
Record Submission : Type := {
  ethereumMetadataCreated : bool;
  submitted : promise Meta.t;
  creating : list (Z * Receipt.t)
}.

Definition newSubmission : Submission :=
  {| ethereumMetadataCreated := false; submitted := Unsettled; creating := [] |}.

(** The first construction in flight that confirmation [n] started, and the
    others. *)
Fixpoint takeCreating (n : Z) (l : list (Z * Receipt.t))
  : option (Receipt.t * list (Z * Receipt.t)) :=
  match l with
  | [] => None
  | (m, receipt) :: rest =>
      if m =? n then Some (receipt, rest)
      else
        match takeCreating n rest with
        | Some (found, others) => Some (found, (m, receipt) :: others)
        | None => None
        end
  end.

Section Callbacks.

Variable this : SmartContractManager.
(** The variables of the enclosing function that the callbacks capture. *)
Variables fee gasPriceToUse : Z.

(** [.on('error', ...)]. *)
Definition onError (s : Submission) (transactionError : string) : Submission :=
  {| ethereumMetadataCreated := ethereumMetadataCreated s;
     submitted := reject (submitted s) (EthereumTransactionError transactionError);
     creating := creating s |}.

(** [.on('confirmation', ...)], up to the call of [createEthereumMetaData]. *)
Definition onConfirmation (s : Submission) (confirmationNumber : Z)
    (receiptAfterConfirmation : Receipt.t) : Submission :=
  if negb (ethereumMetadataCreated s) then
    {| ethereumMetadataCreated := ethereumMetadataCreated s;
       submitted := submitted s;
       creating := creating s ++ [(confirmationNumber, receiptAfterConfirmation)] |}
  else s.

(** The call [createEthereumMetaData(receipt.blockNumber,
    receipt.transactionHash, cost.toString(), fee, gasFee.toString())] of
    the confirmation callback, with [gasFee = gasUsed * gasPriceToUse] and
    [cost = gasFee + fee] (big numbers). *)
Definition createMetaDataOfReceipt (blocks : EthereumBlocks)
    (receiptAfterConfirmation : Receipt.t) : outcome Meta.t :=
  let gasFee := Receipt.gasUsed receiptAfterConfirmation * gasPriceToUse in
  let cost := gasFee + fee in
  result
    (createEthereumMetaData (withBlocks this blocks)
       (Receipt.blockNumber receiptAfterConfirmation)
       (Receipt.transactionHash receiptAfterConfirmation)
       (Some (decimal cost)) (Some (decimal fee)) (Some (decimal gasFee))).

(** The [then] and [catch] callbacks of that call. *)
Definition onMetadataSettled (s : Submission) (confirmationNumber : Z)
    (blocks : EthereumBlocks) : Submission :=
  match takeCreating confirmationNumber (creating s) with
  | None => s
  | Some (receiptAfterConfirmation, others) =>
      match createMetaDataOfReceipt blocks receiptAfterConfirmation with
      | Returns ethereumMetadata =>
          {| ethereumMetadataCreated := true;
             submitted := resolve (submitted s) ethereumMetadata;
             creating := others |}
      | Throws e =>
          if confirmationNumber >=? CREATING_ETHEREUM_METADATA_MAX_ATTEMPTS then
            {| ethereumMetadataCreated := ethereumMetadataCreated s;
               submitted := reject (submitted s) (MaximumConfirmationReached e);
               creating := others |}
          else
            {| ethereumMetadataCreated := ethereumMetadataCreated s;
               submitted := submitted s;
               creating := others |}
      | Pending => s
      end
  end.

Definition onSignal (s : Submission) (sig : signal) : Submission :=
  match sig with
  | OnError transactionError => onError s transactionError
  | OnConfirmation n receipt => onConfirmation s n receipt
  | MetadataSettled n blocks => onMetadataSettled s n blocks
  end.

Definition runSignals (s : Submission) (signals : list signal) : Submission :=
  fold_left onSignal signals s.





End Callbacks.

(** What the caller that awaits the promise observes. *)
Definition awaitPromise {A} (p : promise A) : outcome A :=
  match p with
  | Unsettled => Pending
  | Resolved a => Returns a
  | Rejected e => Throws e
  end.

(** [addHashAndSizeToEthereum], followed over the signals that arrive after
    the transaction is sent.  [gasPrice || await getGasPrice(...)]: an absent
    or zero [gasPrice] asks the gas price definer.  The payload of the
    transaction ([contentHash] and the size padded to 32 bytes) goes to the
    network and plays no part in how the promise settles. *)
Definition addHashAndSizeToEthereum (this : SmartContractManager)
    (contentHash : string) (feesParameters : IFeesParameters)
    (gasPrice : option Z) (signals : list signal) : async Meta.t :=
  account <- getMainAccount this ;;
  fee <- await (call (getFeesAmount this (contentSize feesParameters))) ;;
  gasPriceToUse <-
    match truthy gasPrice with
    | Some price => ret price
    | None => await (call (getGasPrice this))
    end ;;
  await (awaitPromise
           (submitted (runSignals this fee gasPriceToUse newSubmission signals))).

(* ------------------------------------------------------------------ *)
(** ** The ledger and its providers *)

Definition inRange (fromBlock toBlock : Z) (e : Event) : bool :=
  (fromBlock <=? blockNumber e) && (blockNumber e <=? toBlock).

(** A single query of the whole range, answered without any limit: the
    events of the log whose block lies in the range, in the order of the
    log. *)
Definition unlimitedQuery (log : list Event) (fromBlock toBlock : Z)
  : list Event :=
  filter (inRange fromBlock toBlock) log.

(** The log of a ledger lists its events block after block. *)
Definition chronological (log : list Event) : Prop :=
  StronglySorted (fun e1 e2 => blockNumber e1 <= blockNumber e2) log.

(** A provider that, for every range, either returns the events of the
    range or signals that there are too many of them. *)
Definition answersOrOverflows (this : SmartContractManager) (log : list Event)
  : Prop :=
  forall a b,
    getPastEvents this a b = Answers (unlimitedQuery log a b) \/
    exists text,
      getPastEvents this a b = Fails text /\
      MORE_THAN_XXX_RESULTS_REGEX text = true.

(** No overflow on a range of one block or less. *)
Definition answersSingleBlocks (this : SmartContractManager) : Prop :=
  forall a b text, getPastEvents this a b = Fails text -> a < b.

(** A provider that returns at most [limit] events per query. *)
Definition limitedGetPastEvents (limit : Z) (log : list Event)
    (fromBlock toBlock : Z) : reply (list Event) :=
  let events := unlimitedQuery log fromBlock toBlock in
  if limit <? Z.of_nat (List.length events)
  then Fails ("Error: query returned more than " ++ decimal limit ++ " results")%string
  else Answers events.

(** The blocks from [first] to [last], in order. *)
Definition blocksBetween (first last : Z) : list Z :=
  map (fun i => first + Z.of_nat i) (seq 0 (Z.to_nat (last - first + 1))).

(** Modelled from the spec: the [blockAfter] of
    [EthereumBlocks.getBlockNumbersFromTimestamp] ([ethereum-blocks.ts] is
    not among the sources).  Section 4.2: over [[creationBlock, headBlock]],
    "for [from], find the smallest block whose timestamp is >= [from]
    (blockAfter)"; "if no block satisfies the bound (target timestamp before
    genesis or after head), return the nearest boundary rather than
    failing".  The spec searches by bisection, on timestamps that do not
    decrease with the block number; the scan below finds the same block. *)
Definition specBlockAfter (timestampOf : Z -> Z) (creationBlock headBlock : Z)
    (t : Z) : Z :=
  match find (fun b => t <=? timestampOf b) (blocksBetween creationBlock headBlock) with
  | Some b => b
  | None => headBlock
  end.

(** Modelled from the spec: the [blockBefore] of
    [EthereumBlocks.getBlockNumbersFromTimestamp].  Section 4.2: "for [to],
    find the largest block whose timestamp is <= [to] (blockBefore)", and
    the nearest boundary when no block satisfies the bound. *)
Definition specBlockBefore (timestampOf : Z -> Z) (creationBlock headBlock : Z)
    (t : Z) : Z :=
  match find (fun b => timestampOf b <=? t) (rev (blocksBetween creationBlock headBlock)) with
  | Some b => b
  | None => creationBlock
  end.

(** Modelled from the spec: [EthereumBlocks.getBlockNumbersFromTimestamp],
    the pair of the two blocks above; the lookup itself does not fail. *)
Definition specGetBlockNumbersFromTimestamp (timestampOf : Z -> Z)
    (creationBlock headBlock : Z) (t : Z) : reply IBlockNumbersInterval :=
  Answers {| blockBefore := specBlockBefore timestampOf creationBlock headBlock t;
             blockAfter := specBlockAfter timestampOf creationBlock headBlock t |}.

(* ------------------------------------------------------------------ *)
(** ** The environment of the repository's tests *)

(** [web3Utils.hexToNumber] on a non-empty string: a strict hexadecimal
    literal ([0x] and hexadecimal digits) gives its value, anything else
    throws. *)
Definition hexDigit (c : ascii) : option Z :=
  let n := Z.of_nat (nat_of_ascii c) in
  if (48 <=? n) && (n <=? 57) then Some (n - 48)
  else if (97 <=? n) && (n <=? 102) then Some (n - 87)
  else if (65 <=? n) && (n <=? 70) then Some (n - 55)
  else None.

Fixpoint hexValue (acc : Z) (s : string) : option Z :=
  match s with
  | EmptyString => Some acc
  | String c s' =>
      match hexDigit c with
      | Some d => hexValue (16 * acc + d) s'
      | None => None
      end
  end.

Definition web3HexToNumber (s : string) : reply Z :=
  match s with
  | String "0"%char (String "x"%char digits) =>
      match hexValue 0 digits with
      | Some n => Answers n
      | None => Fails "Error: Given value is not a valid hex string."
      end
  | _ => Fails "Error: Given value is not a valid hex string."
  end.

Definition hashStr : string := "QmNXA5DyFZkdf4XkUT81nmJSo3nS2bL25x7YepxeoDa6tY".
Definition otherContent : string :=
  "This is not a hash but but we should be able to add any content into Ethereum, the gas cost for the transaction will be higher".
Definition realSizeBytes32Hex : string :=
  "0x000000000000000000000000000000000000000000000000000000000000001d".
Definition fakeSizeBytes32Hex : string :=
  "0x0000000000000000000000000000000000000000000000000000000000000032".
Definition otherSizeBytes32Hex : string :=
  "0x00000000000000000000000000000000000000000000000000000000000186a0".

Definition newHash (block : Z) (h fp tx : string) : Event :=
  {| blockNumber := block;
     event := "NewHash";
     returnValues := Some {| hash := Some h; feesParameters := Some fp |};
     transactionHash := tx |}.

(** [pastEventsMock]. *)
Definition pastEventsMock : list Event :=
  [ newHash 0 hashStr realSizeBytes32Hex "0xa";
    newHash 4 hashStr fakeSizeBytes32Hex "0xb";
    newHash 6 otherContent otherSizeBytes32Hex "0xc";
    newHash 9 otherContent otherSizeBytes32Hex "" ].

(** [mockBlocksEthereum]: the timestamps of the blocks [0..9]. *)
Definition mockBlocksEthereum : list Z :=
  [7; 30; 45; 87; 100; 150; 209; 234; 290; 306].

Definition mockTimestampOf (b : Z) : Z :=
  nth (Z.to_nat b) mockBlocksEthereum 0.

(** The block service of the tests: ten blocks, the head is block 9, and
    the time index is the one modelled from the spec. *)
Definition mockEthereumBlocks (creationBlock : Z) : EthereumBlocks :=
  {| getBlock := fun describer =>
       if String.eqb describer "latest"
       then Answers (Some {| number := Some 9; timestamp := Some 306 |})
       else if String.eqb describer "pending"
       then Answers (Some {| number := None; timestamp := None |})
       else if String.eqb describer "genesis"
       then Answers (Some {| number := Some 0; timestamp := Some 7 |})
       else Fails "Error: invalid block describer";
     getConfirmationNumber := fun b => Answers (9 - b);
     getBlockTimestamp := fun b =>
       if (0 <=? b) && (b <=? 9) then Answers (mockTimestampOf b)
       else Fails "Error: block not found";
     getBlockNumbersFromTimestamp :=
       specGetBlockNumbersFromTimestamp mockTimestampOf creationBlock 9 |}.

(** A block service whose head lags behind: nothing can be looked up. *)
Definition laggingEthereumBlocks : EthereumBlocks :=
  {| getBlock := fun _ => Fails "Error: block not found";
     getConfirmationNumber := fun _ => Fails "Error: block not found";
     getBlockTimestamp := fun _ => Fails "Error: block not found";
     getBlockNumbersFromTimestamp := fun _ => Fails "Error: block not found" |}.

(** The manager of the tests on the private network, over a given provider
    of past events. *)
Definition mockManager (provider : Z -> Z -> reply (list Event)) (creationBlock : Z)
  : SmartContractManager :=
  {| getPastEvents := provider;
     getAccounts := Answers ["0x627306090abab3a6e1400e9345bc60c78a8bef57"];
     getFeesAmount := fun _ => Answers 100;
     getGasPrice := Answers 1;
     hexToNumber := web3HexToNumber;
     ethereumBlocks := mockEthereumBlocks creationBlock;
     networkName := "private";
     hashStorageAddress := "0x345ca3e014aaf5dca488057592ee47305d9b3e10";
     creationBlockNumberHashStorage := creationBlock |}.

(** [getPastEventsMock]. *)
Definition getPastEventsMock (fromBlock toBlock : Z) : reply (list Event) :=
  Answers (unlimitedQuery pastEventsMock fromBlock toBlock).

(** [noMoreThan1000ResultsGetPastEventsMock]: [txPerBlock] gives the number
    of results of each block; the total is taken over
    [fromBlock <= i < toBlock]. *)
Definition noMoreThan1000ResultsGetPastEventsMock (txPerBlock : list Z)
    (fromBlock toBlock : Z) : reply (list Event) :=
  let totalResult :=
    fold_left (fun total i => total + nth (Z.to_nat i) txPerBlock 0)
      (blocksBetween fromBlock (toBlock - 1)) 0 in
  if totalResult >? 1000
  then Fails ("Error: query returned more than " ++ decimal totalResult ++ " results")%string
  else Answers (unlimitedQuery pastEventsMock fromBlock toBlock).

Definition txPerBlockConfiguration1 : list Z := [1; 1; 1; 1; 1; 1; 1; 1; 1; 1].
Definition txPerBlockConfiguration2 : list Z :=
  [999; 999; 999; 999; 999; 999; 999; 999; 999; 999].
Definition txPerBlockConfiguration3 : list Z := [999; 999; 999; 999; 999; 1; 1; 1; 1; 1].
Definition txPerBlockConfiguration4 : list Z := [1; 1; 1; 1; 1; 999; 999; 999; 999; 999].
Definition txPerBlockConfiguration5 : list Z :=
  [100; 200; 150; 400; 1; 670; 300; 140; 20; 600].

(** A ledger with three anchorings in block 5, behind a provider that
    returns at most two events per query. *)
Definition crowdedLog : list Event :=
  [ newHash 5 hashStr realSizeBytes32Hex "0x1";
    newHash 5 hashStr fakeSizeBytes32Hex "0x2";
    newHash 5 otherContent otherSizeBytes32Hex "0x3" ].

Definition crowdedManager : SmartContractManager :=
  mockManager (limitedGetPastEvents 2 crowdedLog) 0.

(* ------------------------------------------------------------------ *)
(** ** Notions used in the statements *)

(** [element.returnValues.hash === contentHash]. *)
Definition anchors (contentHash : string) (element : Event) : bool :=
  match returnValues element with
  | Some values =>
      match hash values with
      | Some h => String.eqb h contentHash
      | None => false
      end
  | None => false
  end.

(** No range query of the record covers a block before [creationBlock]. *)
Definition queriesNoBlockBefore (creationBlock : Z) (t : list rpc) : Prop :=
  forall a b, In (GetPastEvents a b) t ->
  forall n, a <= n <= b -> creationBlock <= n.

(** The transaction is sent: an account is found, the fee is known, and the
    gas price is the one given or the one of the gas price definer. *)
Definition sent (this : SmartContractManager) (feesParameters : IFeesParameters)
    (gasPrice : option Z) (fee gasPriceToUse : Z) : Prop :=
  (exists account others,
      getAccounts this = Answers (account :: others) /\
      String.eqb account "" = false) /\
  getFeesAmount this (contentSize feesParameters) = Answers fee /\
  match truthy gasPrice with
  | Some price => Answers price
  | None => getGasPrice this
  end = Answers gasPriceToUse.

(** An anchoring of the empty string with a declared size of 0, in block 4
    of the test ledger. *)
Definition emptyAnchoring : Event :=
  newHash 4 "" "0x0000000000000000000000000000000000000000000000000000000000000000" "0xd".

(** The malformed event of the tests ([badEventsMock]): no hash. *)
Definition badEvent : Event :=
  {| blockNumber := 2;
     event := "NewHash";
     returnValues := Some {| hash := None; feesParameters := Some fakeSizeBytes32Hex |};
     transactionHash := "0xb" |}.

(** The receipt of a transaction mined in block 9 of the test ledger. *)
Definition minedReceipt : Receipt.t :=
  {| Receipt.gasUsed := 21000;
     Receipt.blockNumber := 9;
     Receipt.transactionHash :=
       "0x7c45c575a54893dc8dc7230e3044e1de5c8714cd0a1374cf3a66378c639627a3" |}.

(** The hashes and the sizes of the entries of a retrieval. *)
Definition hashesAndSizes (entries : outcome (list Entry.t))
  : outcome (list (string * Z)) :=
  match entries with
  | Returns l =>
      Returns (map (fun entry =>
                      (Entry.hash entry, contentSize (Entry.feesParameters entry))) l)
  | Throws e => Throws e
  | Pending => Pending
  end.

(* ------------------------------------------------------------------ *)
(** ** Checks of the node and of the contracts *)

(** What the two checks ask of the node, besides the manager's own fields:
    [eth.net.isListening()], the call
    [requestHashStorage.methods.isWhitelisted(address).call()] and the
    address of the hash submitter. *)
Record NodeAccess : Type := {
  isListening : reply bool;
  isWhitelisted : string -> reply bool;
  hashSubmitterAddress : string
}.

(** [try { body } catch (error) { throw Error(`${prefix}${error}`) }] on a
    promise of no value: the text of the rejection is the [toString()] of
    the new error. *)
Definition catchAndWrap (prefix : string) (body : reply unit) : reply unit :=
  match body with
  | Answers tt => Answers tt
  | Fails error => Fails ("Error: " ++ prefix ++ error)%string
  end.

(** [checkEthereumNodeConnection]: the error thrown when the node is not
    listening is thrown inside the [try], and caught with the others. *)
Definition checkEthereumNodeConnection (node : NodeAccess) : reply unit :=
  catchAndWrap "Ethereum node is not reachable: "
    match isListening node with
    | Answers listening =>
        if negb listening then Fails "Error: Node not listening" else Answers tt
    | Fails error => Fails error
    end.

(** [checkContracts]: the submitter must be whitelisted in the storage
    contract, and [getFeesAmount(0)] must answer. *)
Definition checkContracts (this : SmartContractManager) (node : NodeAccess)
  : reply unit :=
  catchAndWrap "Contracts are not deployed or not well configured: "
    match isWhitelisted node (hashSubmitterAddress node) with
    | Answers isSubmitterWhitelisted =>
        if negb isSubmitterWhitelisted
        then Fails "Error: The hash submitter not whitelisted in request Hash Storage contract"
        else
          match getFeesAmount this 0 with
          | Answers _ => Answers tt
          | Fails error => Fails error
          end
    | Fails error => Fails error
    end.

(** The same manager with another gas price definer. *)
Definition withGasPrice (this : SmartContractManager) (price : reply Z)
  : SmartContractManager :=
  {| getPastEvents := getPastEvents this;
     getAccounts := getAccounts this;
     getFeesAmount := getFeesAmount this;
     getGasPrice := price;
     hexToNumber := hexToNumber this;
     ethereumBlocks := ethereumBlocks this;
     networkName := networkName this;
     hashStorageAddress := hashStorageAddress this;
     creationBlockNumberHashStorage := creationBlockNumberHashStorage this |}.

(** The node of the tests: listening, with the submitter whitelisted. *)
Definition mockNode : NodeAccess :=
  {| isListening := Answers true;
     isWhitelisted := fun address =>
       Answers (String.eqb address "0xf25186b5081ff5ce73482ad761db0eb0d25abfbf");
     hashSubmitterAddress := "0xf25186b5081ff5ce73482ad761db0eb0d25abfbf" |}.

(** [eventItem.event === 'NewHash']. *)
Definition isNewHash (eventItem : Event) : bool :=
  String.eqb (event eventItem) "NewHash".

(** What [checkAndAddMetaDataToEvent] returns for an event, field by
    field. *)
Definition enriches (this : SmartContractManager) (ev : Event) (entry : Entry.t)
  : Prop :=
  exists values fp,
    returnValues ev = Some values /\
    hash values = Some (Entry.hash entry) /\
    feesParameters values = Some fp /\
    hexToNumber this fp = Answers (contentSize (Entry.feesParameters entry)) /\
    getConfirmationNumber (ethereumBlocks this) (blockNumber ev)
    = Answers (Meta.blockConfirmation (Entry.meta entry)) /\
    getBlockTimestamp (ethereumBlocks this) (blockNumber ev)
    = Answers (Meta.blockTimestamp (Entry.meta entry)) /\
    Meta.blockNumber (Entry.meta entry) = blockNumber ev /\
    Meta.transactionHash (Entry.meta entry) = transactionHash ev /\
    Meta.networkName (Entry.meta entry) = networkName this /\
    Meta.smartContractAddress (Entry.meta entry) = hashStorageAddress this /\
    Meta.cost (Entry.meta entry) = None /\
    Meta.fee (Entry.meta entry) = None /\
    Meta.gasFee (Entry.meta entry) = None.

(** The range queries of a record. *)
Definition rangeQueries (t : list rpc) : list (Z * Z) :=
  flat_map (fun r => match r with
                     | GetPastEvents a b => [(a, b)]
                     | GetBlock _ => []
                     end) t.

(** A provider that times out on the upper half of the first split. *)
Definition timeoutAbove5 (fromBlock toBlock : Z) : reply (list Event) :=
  if (fromBlock =? 0) && (toBlock =? 9)
  then Fails "Error: query returned more than 1000 results"
  else if 5 <=? fromBlock
  then Fails "Error: Web3 getPastEvents connection timeout"
  else Answers (unlimitedQuery pastEventsMock fromBlock toBlock).

(** An event of another name, without return values, before an anchoring. *)
Definition foreignEvent : Event :=
  {| blockNumber := 3;
     event := "OwnershipTransferred";
     returnValues := None;
     transactionHash := "0xe" |}.

Definition mixedEvents : list Event := [foreignEvent; emptyAnchoring].

(** Where the state of a submission comes from, given the signals seen so
    far: every construction in flight was started by a confirmation signal;
    a resolved promise holds the metadata built from the receipt of a
    confirmation signal by a construction that settled; a rejected promise
    holds the error of an error signal, or the failure of a construction
    started by a confirmation numbered
    [CREATING_ETHEREUM_METADATA_MAX_ATTEMPTS] or more. *)
Definition accountedFor (this : SmartContractManager) (fee gasPriceToUse : Z)
    (seen : list signal) (s : Submission) : Prop :=
  (forall n receipt,
      In (n, receipt) (creating s) -> In (OnConfirmation n receipt) seen) /\
  (forall meta,
      submitted s = Resolved meta ->
      exists n receipt blocks,
        In (OnConfirmation n receipt) seen /\
        In (MetadataSettled n blocks) seen /\
        createMetaDataOfReceipt this fee gasPriceToUse blocks receipt = Returns meta) /\
  (forall e,
      submitted s = Rejected e ->
      (exists transactionError,
          In (OnError transactionError) seen /\
          e = EthereumTransactionError transactionError) \/
      (exists n receipt blocks cause,
          In (OnConfirmation n receipt) seen /\
          In (MetadataSettled n blocks) seen /\
          CREATING_ETHEREUM_METADATA_MAX_ATTEMPTS <= n /\
          createMetaDataOfReceipt this fee gasPriceToUse blocks receipt = Throws cause /\
          e = MaximumConfirmationReached cause)).

(** Signals that are all confirmation signals. *)
Definition onlyConfirmations (signals : list signal) : Prop :=
  Forall (fun sig => exists n receipt, sig = OnConfirmation n receipt) signals.

(** [[0-9]*] as a test on a whole string. *)
Fixpoint allDigits (s : string) : bool :=
  match s with
  | EmptyString => true
  | String c s' => isDigit c && allDigits s'
  end.

(* ================================================================== *)
(** * Properties *)

Example regex_matches_overflow :
  MORE_THAN_XXX_RESULTS_REGEX "Error: query returned more than 1000 results" = true.
Proof. reflexivity. Qed.

Example regex_rejects_leading_zero :
  MORE_THAN_XXX_RESULTS_REGEX "Error: query returned more than 0 results" = false.
Proof. reflexivity. Qed.

Example regex_rejects_timeout :
  MORE_THAN_XXX_RESULTS_REGEX "Error: Web3 getPastEvents connection timeout" = false.
Proof. reflexivity. Qed.

Example hexToNumber_real_size : web3HexToNumber realSizeBytes32Hex = Answers 29.
Proof. reflexivity. Qed.

Example hexToNumber_other_size : web3HexToNumber otherSizeBytes32Hex = Answers 100000.
Proof. reflexivity. Qed.

(** The five configurations of the test "allows to get hashes and sizes from
    events on block interval with over 1000 results". *)
Example split_configuration1 :
  recursiveGetPastEvents
    (mockManager (noMoreThan1000ResultsGetPastEventsMock txPerBlockConfiguration1) 0)
    10 0 (BlockTag "latest")
  = ([GetBlock "latest"; GetPastEvents 0 9], Returns pastEventsMock).
Proof. vm_compute. reflexivity. Qed.

Example split_configuration2 :
  result (recursiveGetPastEvents
    (mockManager (noMoreThan1000ResultsGetPastEventsMock txPerBlockConfiguration2) 0)
    10 0 (BlockTag "latest"))
  = Returns pastEventsMock.
Proof. vm_compute. reflexivity. Qed.

Example split_configuration2_trace :
  trace (recursiveGetPastEvents
    (mockManager (noMoreThan1000ResultsGetPastEventsMock txPerBlockConfiguration2) 0)
    10 0 (BlockTag "latest"))
  = [GetBlock "latest"; GetPastEvents 0 9;
     GetPastEvents 0 4; GetPastEvents 0 2; GetPastEvents 0 1; GetPastEvents 2 2;
     GetPastEvents 3 4;
     GetPastEvents 5 9; GetPastEvents 5 7; GetPastEvents 5 6; GetPastEvents 7 7;
     GetPastEvents 8 9].
Proof. vm_compute. reflexivity. Qed.

Example split_configuration3 :
  result (recursiveGetPastEvents
    (mockManager (noMoreThan1000ResultsGetPastEventsMock txPerBlockConfiguration3) 0)
    10 0 (BlockTag "latest"))
  = Returns pastEventsMock.
Proof. vm_compute. reflexivity. Qed.

Example split_configuration4 :
  result (recursiveGetPastEvents
    (mockManager (noMoreThan1000ResultsGetPastEventsMock txPerBlockConfiguration4) 0)
    10 0 (BlockTag "latest"))
  = Returns pastEventsMock.
Proof. vm_compute. reflexivity. Qed.

Example split_configuration5 :
  result (recursiveGetPastEvents
    (mockManager (noMoreThan1000ResultsGetPastEventsMock txPerBlockConfiguration5) 0)
    10 0 (BlockTag "latest"))
  = Returns pastEventsMock.
Proof. vm_compute. reflexivity. Qed.

(** The tests "allows to get all hashes", with and without boundaries. *)
Example get_all_hashes :
  hashesAndSizes
    (result (getHashesAndSizesFromEthereum (mockManager getPastEventsMock 0) 3 None))
  = Returns [(hashStr, 29); (hashStr, 50); (otherContent, 100000); (otherContent, 100000)].
Proof. vm_compute. reflexivity. Qed.

Example get_all_hashes_from :
  hashesAndSizes
    (result (getHashesAndSizesFromEthereum (mockManager getPastEventsMock 0) 3
               (Some {| from := Some 299; to := None |})))
  = Returns [(otherContent, 100000)].
Proof. vm_compute. reflexivity. Qed.

Example get_all_hashes_to :
  hashesAndSizes
    (result (getHashesAndSizesFromEthereum (mockManager getPastEventsMock 0) 3
               (Some {| from := None; to := Some 299 |})))
  = Returns [(hashStr, 29); (hashStr, 50); (otherContent, 100000)].
Proof. vm_compute. reflexivity. Qed.

Example get_all_hashes_from_and_to :
  hashesAndSizes
    (result (getHashesAndSizesFromEthereum (mockManager getPastEventsMock 0) 3
               (Some {| from := Some 10; to := Some 299 |})))
  = Returns [(hashStr, 50); (otherContent, 100000)].
Proof. vm_compute. reflexivity. Qed.

(* ------------------------------------------------------------------ *)
(** ** Promises *)

Lemma result_bind {A B} (m : async A) (k : A -> async B) :
  result (bind m k) =
  match result m with
  | Returns a => result (k a)
  | Throws e => Throws e
  | Pending => Pending
  end.
Proof.
  destruct m as [t [a | e |]]; simpl; try reflexivity.
  destruct (k a); reflexivity.
Qed.

Lemma trace_bind {A B} (m : async A) (k : A -> async B) :
  trace (bind m k) =
  trace m ++ match result m with
             | Returns a => trace (k a)
             | _ => []
             end.
Proof.
  destruct m as [t [a | e |]]; simpl; try (now rewrite app_nil_r).
  destruct (k a); reflexivity.
Qed.

Lemma result_promiseAll {A B} (p1 : async A) (p2 : async B) :
  result (promiseAll p1 p2) =
  match result p1, result p2 with
  | Returns a, Returns b => Returns (a, b)
  | Throws e, _ => Throws e
  | _, Throws e => Throws e
  | _, _ => Pending
  end.
Proof. destruct p1, p2; reflexivity. Qed.

Lemma trace_promiseAll {A B} (p1 : async A) (p2 : async B) :
  trace (promiseAll p1 p2) = trace p1 ++ trace p2.
Proof. destruct p1, p2; reflexivity. Qed.

(* ------------------------------------------------------------------ *)
(** ** Range-split retrieval *)

(** One call of [recursiveGetPastEvents] on a numeric range. *)
Lemma result_recursiveGetPastEvents_number this fuel a b :
  result (recursiveGetPastEvents this (S fuel) a (BlockNumber b)) =
  match getPastEvents this a b with
  | Answers events => Returns events
  | Fails e =>
      if MORE_THAN_XXX_RESULTS_REGEX e then
        match result (recursiveGetPastEvents this fuel a (BlockNumber ((a + b) / 2))),
              result (recursiveGetPastEvents this fuel ((a + b) / 2 + 1) (BlockNumber b))
        with
        | Returns first, Returns second => Returns (first ++ second)
        | Throws e', _ => Throws e'
        | _, Throws e' => Throws e'
        | _, _ => Pending
        end
      else Throws (External e)
  end.
Proof.
  cbn [recursiveGetPastEvents getBlockNumberFromNumberOrString].
  rewrite result_bind. cbn [ret result snd].
  rewrite result_bind. cbn [remote result snd].
  destruct (getPastEvents this a b) as [events | e]; [reflexivity |].
  destruct (MORE_THAN_XXX_RESULTS_REGEX e); [| reflexivity].
  rewrite !result_bind. cbn [result snd]. rewrite result_promiseAll.
  destruct (result (recursiveGetPastEvents this fuel a (BlockNumber ((a + b) / 2))));
    destruct (result (recursiveGetPastEvents this fuel ((a + b) / 2 + 1) (BlockNumber b)));
    reflexivity.
Qed.

(** A describer that resolves to [n] behaves as the number [n] from the
    range query on. *)
Lemma result_recursiveGetPastEvents_resolved this fuel a toBlock n :
  result (getBlockNumberFromNumberOrString this toBlock) = Returns n ->
  result (recursiveGetPastEvents this (S fuel) a toBlock) =
  result (recursiveGetPastEvents this (S fuel) a (BlockNumber n)).
Proof.
  intros H.
  cbn [recursiveGetPastEvents].
  rewrite (result_bind (getBlockNumberFromNumberOrString this toBlock)), H.
  rewrite (result_bind (getBlockNumberFromNumberOrString this (BlockNumber n))).
  reflexivity.
Qed.

(** The midpoint of a range of two blocks or more cuts it into two shorter,
    non-empty ranges. *)
Lemma midpoint_splits a b :
  a < b -> a <= (a + b) / 2 /\ (a + b) / 2 < b.
Proof.
  intros H. split.
  - apply Z.div_le_lower_bound; lia.
  - apply Z.div_lt_upper_bound; lia.
Qed.

(** The midpoint of a single block is that block: the first half is the
    range itself. *)
Lemma midpoint_of_single_block a : (a + a) / 2 = a.
Proof. replace (a + a) with (a * 2) by lia. apply Z.div_mul. lia. Qed.

Lemma unlimitedQuery_none_above log a m e :
  Forall (fun x => blockNumber e <= blockNumber x) log ->
  m < blockNumber e ->
  unlimitedQuery log a m = [].
Proof.
  unfold unlimitedQuery, inRange.
  induction 1 as [| x l Hx _ IH]; intros Hm; simpl; [reflexivity |].
  destruct (a <=? blockNumber x) eqn:E1; destruct (blockNumber x <=? m) eqn:E2;
    simpl; auto; lia.
Qed.

(** On a chronological log, querying the two halves of a range and
    appending the answers is querying the range. *)
Lemma unlimitedQuery_split log a m b :
  chronological log ->
  a <= m + 1 -> m <= b ->
  unlimitedQuery log a b = unlimitedQuery log a m ++ unlimitedQuery log (m + 1) b.
Proof.
  intros Hs Ham Hmb.
  induction Hs as [| e l Hs IH Hall]; [reflexivity |].
  change (unlimitedQuery (e :: l) a b)
    with (if inRange a b e then e :: unlimitedQuery l a b else unlimitedQuery l a b).
  change (unlimitedQuery (e :: l) a m)
    with (if inRange a m e then e :: unlimitedQuery l a m else unlimitedQuery l a m).
  change (unlimitedQuery (e :: l) (m + 1) b)
    with (if inRange (m + 1) b e then e :: unlimitedQuery l (m + 1) b
          else unlimitedQuery l (m + 1) b).
  unfold inRange.
  destruct (a <=? blockNumber e) eqn:E1; destruct (blockNumber e <=? b) eqn:E2;
    destruct (blockNumber e <=? m) eqn:E3; destruct (m + 1 <=? blockNumber e) eqn:E4;
    simpl; try lia; try exact IH.
  - rewrite IH. reflexivity.
  - rewrite IH.
    rewrite (unlimitedQuery_none_above l a m e Hall) by lia.
    reflexivity.
Qed.

Section Retrieval.

Variable this : SmartContractManager.
Variable log : list Event.
Hypothesis log_chronological : chronological log.
Hypothesis provider_answers : answersOrOverflows this log.
Hypothesis single_blocks_answered : answersSingleBlocks this.

(** With more fuel than the range has blocks, the retrieval of a numeric
    range returns what the unlimited query returns. *)
Lemma recursiveGetPastEvents_number_returns :
  forall fuel a b,
    (Z.to_nat (b - a) < fuel)%nat ->
    result (recursiveGetPastEvents this fuel a (BlockNumber b))
    = Returns (unlimitedQuery log a b).
Proof.
  induction fuel as [| fuel IH]; intros a b Hfuel; [lia |].
  rewrite result_recursiveGetPastEvents_number.
  destruct (provider_answers a b) as [Hok | [text [Hfail Hre]]].
  - rewrite Hok. reflexivity.
  - rewrite Hfail, Hre.
    pose proof (single_blocks_answered a b text Hfail) as Hab.
    destruct (midpoint_splits a b Hab) as [Hlo Hhi].
    rewrite (IH a ((a + b) / 2)) by lia.
    rewrite (IH ((a + b) / 2 + 1) b) by lia.
    rewrite <- unlimitedQuery_split by (assumption || lia).
    reflexivity.
Qed.

End Retrieval.

(** A single block that overflows: whatever the fuel, the retrieval of the
    block does not return.  The first half of the split is the block
    itself. *)
Lemma single_block_overflow_never_returns this n text :
  getPastEvents this n n = Fails text ->
  MORE_THAN_XXX_RESULTS_REGEX text = true ->
  forall fuel events,
    result (recursiveGetPastEvents this fuel n (BlockNumber n)) <> Returns events.
Proof.
  intros Hfail Hre.
  induction fuel as [| fuel IH]; intros events.
  - discriminate.
  - rewrite result_recursiveGetPastEvents_number, Hfail, Hre.
    rewrite midpoint_of_single_block.
    destruct (result (recursiveGetPastEvents this fuel n (BlockNumber n))) eqn:E1.
    + exfalso. exact (IH _ eq_refl).
    + discriminate.
    + destruct (result (recursiveGetPastEvents this fuel (n + 1) (BlockNumber n)));
        discriminate.
Qed.

(** When moreover the empty range after the block is answered, the
    retrieval stays pending: it neither returns nor throws. *)
Lemma single_block_overflow_pending this n text :
  getPastEvents this n n = Fails text ->
  MORE_THAN_XXX_RESULTS_REGEX text = true ->
  (exists events, getPastEvents this (n + 1) n = Answers events) ->
  forall fuel,
    result (recursiveGetPastEvents this fuel n (BlockNumber n)) = Pending.
Proof.
  intros Hfail Hre [events Hempty].
  induction fuel as [| fuel IH]; [reflexivity |].
  rewrite result_recursiveGetPastEvents_number, Hfail, Hre.
  rewrite midpoint_of_single_block, IH.
  destruct fuel as [| fuel']; [reflexivity |].
  rewrite result_recursiveGetPastEvents_number, Hempty.
  reflexivity.
Qed.

(** An overflowing range does not return when one of its halves does not. *)
Lemma overflow_never_returns_from_half this a b text :
  getPastEvents this a b = Fails text ->
  MORE_THAN_XXX_RESULTS_REGEX text = true ->
  (forall fuel events,
      result (recursiveGetPastEvents this fuel a (BlockNumber ((a + b) / 2)))
      <> Returns events) \/
  (forall fuel events,
      result (recursiveGetPastEvents this fuel ((a + b) / 2 + 1) (BlockNumber b))
      <> Returns events) ->
  forall fuel events,
    result (recursiveGetPastEvents this fuel a (BlockNumber b)) <> Returns events.
Proof.
  intros Hfail Hre Hhalf fuel events.
  destruct fuel as [| fuel]; [discriminate |].
  rewrite result_recursiveGetPastEvents_number, Hfail, Hre.
  destruct (result (recursiveGetPastEvents this fuel a (BlockNumber ((a + b) / 2))))
    as [first | e1 |] eqn:E1;
    destruct (result (recursiveGetPastEvents this fuel ((a + b) / 2 + 1) (BlockNumber b)))
    as [second | e2 |] eqn:E2; try discriminate.
  destruct Hhalf as [H | H]; exfalso.
  - exact (H fuel first E1).
  - exact (H fuel second E2).
Qed.

(** The provider with a limit of one event per query, over the events of
    the tests, answers or overflows, and answers every single block. *)
Lemma limited_mock_answersOrOverflows creationBlock :
  answersOrOverflows
    (mockManager (limitedGetPastEvents 1 pastEventsMock) creationBlock)
    pastEventsMock.
Proof.
  intros a b. cbn [getPastEvents mockManager]. unfold limitedGetPastEvents.
  destruct (1 <? Z.of_nat (List.length (unlimitedQuery pastEventsMock a b))).
  - right. eexists. split; reflexivity.
  - left. reflexivity.
Qed.

Lemma limited_mock_answersSingleBlocks creationBlock :
  answersSingleBlocks
    (mockManager (limitedGetPastEvents 1 pastEventsMock) creationBlock).
Proof.
  intros a b text. cbn [getPastEvents mockManager].
  unfold limitedGetPastEvents, unlimitedQuery, pastEventsMock, inRange.
  cbn [filter newHash blockNumber].
  destruct (Z.lt_ge_cases a b) as [Hlt | Hge]; [intros _; exact Hlt |].
  destruct (a <=? 0) eqn:A0; destruct (0 <=? b) eqn:B0;
    destruct (a <=? 4) eqn:A4; destruct (4 <=? b) eqn:B4;
    destruct (a <=? 6) eqn:A6; destruct (6 <=? b) eqn:B6;
    destruct (a <=? 9) eqn:A9; destruct (9 <=? b) eqn:B9;
    cbn; try discriminate; intros _; lia.
Qed.

Lemma pastEventsMock_chronological : chronological pastEventsMock.
Proof.
  unfold chronological, pastEventsMock.
  repeat (constructor; cbn [blockNumber newHash]; try lia).
Qed.

Lemma crowded_answersOrOverflows : answersOrOverflows crowdedManager crowdedLog.
Proof.
  intros a b. cbn [getPastEvents mockManager crowdedManager].
  unfold limitedGetPastEvents.
  destruct (2 <? Z.of_nat (List.length (unlimitedQuery crowdedLog a b))).
  - right. eexists. split; reflexivity.
  - left. reflexivity.
Qed.

Lemma crowdedLog_chronological : chronological crowdedLog.
Proof.
  unfold chronological, crowdedLog.
  repeat (constructor; cbn [blockNumber newHash]; try lia).
Qed.

(** The retrieval of a range whose upper bound resolves to a number, with
    more fuel than the range has blocks. *)
Lemma retrieval_returns_unlimited_query
    this log fromBlock toBlock toBlockNumber fuel :
  chronological log ->
  answersOrOverflows this log ->
  answersSingleBlocks this ->
  result (getBlockNumberFromNumberOrString this toBlock) = Returns toBlockNumber ->
  (Z.to_nat (toBlockNumber - fromBlock) < fuel)%nat ->
  result (recursiveGetPastEvents this fuel fromBlock toBlock)
  = Returns (unlimitedQuery log fromBlock toBlockNumber).
Proof.
  intros Hlog Hans Hsingle Hto Hfuel.
  destruct fuel as [| fuel]; [lia |].
  rewrite (result_recursiveGetPastEvents_resolved this fuel fromBlock toBlock
             toBlockNumber Hto).
  apply (recursiveGetPastEvents_number_returns this log Hlog Hans Hsingle).
  exact Hfuel.
Qed.

(** C1, as amended.  Range-split equivalence: over a chronological log, for
    every range and every provider that answers each range query with the
    events of the range or with a result-count overflow, and that answers
    every range of one block or less, [recursiveGetPastEvents] returns
    exactly the ordered event list of a single unlimited query over the
    range, as soon as the fuel exceeds the number of blocks of the range. *)
Theorem recursiveGetPastEvents_returns_unlimited_query :
  forall (this : SmartContractManager) (log : list Event)
         (fromBlock : Z) (toBlock : NumberOrString) (toBlockNumber : Z)
         (fuel : nat),
    chronological log ->
    answersOrOverflows this log ->
    answersSingleBlocks this ->
    result (getBlockNumberFromNumberOrString this toBlock) = Returns toBlockNumber ->
    (Z.to_nat (toBlockNumber - fromBlock) < fuel)%nat ->
    result (recursiveGetPastEvents this fuel fromBlock toBlock)
    = Returns (unlimitedQuery log fromBlock toBlockNumber).
Proof.
  intros this log fromBlock toBlock toBlockNumber fuel.
  apply retrieval_returns_unlimited_query.
Qed.

(** The events of the tests behind a provider limited to one event per
    query: the whole range is split down to ranges of one event and comes
    back as the unlimited query. *)
Lemma recursiveGetPastEvents_returns_unlimited_query_witness :
  result (recursiveGetPastEvents
            (mockManager (limitedGetPastEvents 1 pastEventsMock) 0)
            10 0 (BlockTag "latest"))
  = Returns (unlimitedQuery pastEventsMock 0 9).
Proof.
  apply (recursiveGetPastEvents_returns_unlimited_query
           (mockManager (limitedGetPastEvents 1 pastEventsMock) 0)
           pastEventsMock 0 (BlockTag "latest") 9 10).
  - exact pastEventsMock_chronological.
  - exact (limited_mock_answersOrOverflows 0).
  - exact (limited_mock_answersSingleBlocks 0).
  - reflexivity.
  - vm_compute. lia.
Defined.

(** C1, as stated, fails: the provider below answers every range query
    with its events or with an overflow, yet the retrieval of the whole
    range [0..9] never returns the list of the unlimited query, because
    block 5 alone holds more events than the provider returns. *)
Lemma recursiveGetPastEvents_crowded_block_counterexample :
  chronological crowdedLog /\
  answersOrOverflows crowdedManager crowdedLog /\
  result (getBlockNumberFromNumberOrString crowdedManager (BlockTag "latest"))
  = Returns 9 /\
  forall fuel,
    result (recursiveGetPastEvents crowdedManager fuel 0 (BlockTag "latest"))
    <> Returns (unlimitedQuery crowdedLog 0 9).
Proof.
  split; [exact crowdedLog_chronological |].
  split; [exact crowded_answersOrOverflows |].
  split; [reflexivity |].
  assert (H55 : forall fuel events,
             result (recursiveGetPastEvents crowdedManager fuel 5 (BlockNumber 5))
             <> Returns events).
  { apply (single_block_overflow_never_returns crowdedManager 5
             "Error: query returned more than 2 results"); reflexivity. }
  assert (H56 : forall fuel events,
             result (recursiveGetPastEvents crowdedManager fuel 5 (BlockNumber 6))
             <> Returns events).
  { apply (overflow_never_returns_from_half crowdedManager 5 6
             "Error: query returned more than 2 results");
      [reflexivity | reflexivity | left; exact H55]. }
  assert (H57 : forall fuel events,
             result (recursiveGetPastEvents crowdedManager fuel 5 (BlockNumber 7))
             <> Returns events).
  { apply (overflow_never_returns_from_half crowdedManager 5 7
             "Error: query returned more than 2 results");
      [reflexivity | reflexivity | left; exact H56]. }
  assert (H59 : forall fuel events,
             result (recursiveGetPastEvents crowdedManager fuel 5 (BlockNumber 9))
             <> Returns events).
  { apply (overflow_never_returns_from_half crowdedManager 5 9
             "Error: query returned more than 2 results");
      [reflexivity | reflexivity | left; exact H57]. }
  assert (H09 : forall fuel events,
             result (recursiveGetPastEvents crowdedManager fuel 0 (BlockNumber 9))
             <> Returns events).
  { apply (overflow_never_returns_from_half crowdedManager 0 9
             "Error: query returned more than 2 results");
      [reflexivity | reflexivity | right; exact H59]. }
  intros [| fuel]; [discriminate |].
  rewrite (result_recursiveGetPastEvents_resolved crowdedManager fuel 0
             (BlockTag "latest") 9 eq_refl).
  apply H09.
Qed.

(** C2, on the failing input.  Block 5 of the crowded ledger overflows the
    provider's limit; the retrieval of the single block [5..5] splits it at
    its midpoint 5 into [5..5] and [6..5] and, whatever the fuel, is still
    pending: it never fails with an error. *)
Theorem recursiveGetPastEvents_single_block_overflow_pending :
  getPastEvents crowdedManager 5 5
  = Fails "Error: query returned more than 2 results" /\
  (5 + 5) / 2 = 5 /\
  forall fuel,
    result (recursiveGetPastEvents crowdedManager fuel 5 (BlockNumber 5)) = Pending.
Proof.
  split; [reflexivity |].
  split; [reflexivity |].
  apply (single_block_overflow_pending crowdedManager 5
           "Error: query returned more than 2 results").
  - reflexivity.
  - reflexivity.
  - eexists. reflexivity.
Qed.

(* ------------------------------------------------------------------ *)
(** ** Resolution of the upper bound *)

(** A number is returned as it is, without any lookup. *)
Lemma getBlockNumberFromNumberOrString_number this n :
  getBlockNumberFromNumberOrString this (BlockNumber n) = ([], Returns n).
Proof. reflexivity. Qed.

(** A describer costs one lookup of the described block, and gives the
    number of that block when the number is truthy. *)
Lemma getBlockNumberFromNumberOrString_tag this describer :
  getBlockNumberFromNumberOrString this (BlockTag describer) =
  ([GetBlock describer],
   match getBlock (ethereumBlocks this) describer with
   | Fails text => Throws (CannotGetBlockNumber (External text))
   | Answers None => Throws (BlockHasNoNumber describer)
   | Answers (Some b) =>
       match number b with
       | None => Throws (BlockHasNoNumber describer)
       | Some n => if n =? 0 then Throws (BlockHasNoNumber describer) else Returns n
       end
   end).
Proof.
  cbn [getBlockNumberFromNumberOrString].
  destruct (getBlock (ethereumBlocks this) describer) as [[b |] | text];
    cbn; try reflexivity.
  destruct (number b) as [n |]; cbn; [| reflexivity].
  destruct (n =? 0); reflexivity.
Qed.

Lemma trace_recursiveGetPastEvents_number this fuel a b :
  trace (recursiveGetPastEvents this (S fuel) a (BlockNumber b)) =
  GetPastEvents a b ::
  match getPastEvents this a b with
  | Answers _ => []
  | Fails e =>
      if MORE_THAN_XXX_RESULTS_REGEX e then
        trace (recursiveGetPastEvents this fuel a (BlockNumber ((a + b) / 2))) ++
        trace (recursiveGetPastEvents this fuel ((a + b) / 2 + 1) (BlockNumber b))
      else []
  end.
Proof.
  cbn [recursiveGetPastEvents getBlockNumberFromNumberOrString].
  rewrite trace_bind. cbn [ret result trace fst snd app].
  rewrite trace_bind. cbn [remote result trace fst snd app].
  destruct (getPastEvents this a b) as [events | e]; [reflexivity |].
  destruct (MORE_THAN_XXX_RESULTS_REGEX e); [| reflexivity].
  rewrite !trace_bind. cbn [result trace fst snd app].
  rewrite trace_promiseAll, result_promiseAll.
  destruct (result (recursiveGetPastEvents this fuel a (BlockNumber ((a + b) / 2))));
    destruct (result (recursiveGetPastEvents this fuel ((a + b) / 2 + 1) (BlockNumber b)));
    cbn [ret trace fst]; now rewrite app_nil_r.
Qed.

(** The lookup of the described block comes first; the range queries follow
    only when it gave a number. *)
Lemma trace_recursiveGetPastEvents_resolved this fuel a toBlock :
  trace (recursiveGetPastEvents this (S fuel) a toBlock) =
  trace (getBlockNumberFromNumberOrString this toBlock) ++
  match result (getBlockNumberFromNumberOrString this toBlock) with
  | Returns n => trace (recursiveGetPastEvents this (S fuel) a (BlockNumber n))
  | _ => []
  end.
Proof.
  cbn [recursiveGetPastEvents].
  rewrite (trace_bind (getBlockNumberFromNumberOrString this toBlock)).
  destruct (result (getBlockNumberFromNumberOrString this toBlock)) as [n | e |];
    try reflexivity.
  rewrite (trace_bind (getBlockNumberFromNumberOrString this (BlockNumber n))).
  reflexivity.
Qed.

Lemma recursiveGetPastEvents_unresolved this fuel a toBlock e :
  result (getBlockNumberFromNumberOrString this toBlock) = Throws e ->
  recursiveGetPastEvents this (S fuel) a toBlock
  = (trace (getBlockNumberFromNumberOrString this toBlock), Throws e).
Proof.
  intros H. cbn [recursiveGetPastEvents].
  destruct (getBlockNumberFromNumberOrString this toBlock) as [t r].
  cbn in H. subst r. reflexivity.
Qed.

(** C8, on the failing input.  The describer ["genesis"], which the
    documentation of the function lists, names the block of number 0; the
    lookup finds the block and its number, and
    [getBlockNumberFromNumberOrString] throws "Block genesis has no number"
    instead of returning 0, so the retrieval that asked for it fails before
    any range query. *)
Theorem getBlockNumberFromNumberOrString_genesis_has_no_number :
  let this := mockManager getPastEventsMock 0 in
  getBlock (ethereumBlocks this) "genesis"
  = Answers (Some {| number := Some 0; timestamp := Some 7 |}) /\
  getBlockNumberFromNumberOrString this (BlockTag "genesis")
  = ([GetBlock "genesis"], Throws (BlockHasNoNumber "genesis")) /\
  toString (BlockHasNoNumber "genesis") = "Error: Block genesis has no number" /\
  forall fuel,
    getHashesAndSizesFromEvents this (S fuel) 0 (Some (BlockTag "genesis"))
    = ([GetBlock "genesis"], Throws (BlockHasNoNumber "genesis")).
Proof.
  cbv zeta. repeat split; reflexivity.
Qed.

(** The tests on the upper bound: a describer that cannot be looked up, and
    the pending block, which has no number. *)
Example getHashesAndSizesFromEvents_incorrect_describer :
  getHashesAndSizesFromEvents (mockManager getPastEventsMock 0) 3 0
    (Some (BlockTag "incorrectBlockDescriber"))
  = ([GetBlock "incorrectBlockDescriber"],
     Throws (CannotGetBlockNumber (External "Error: invalid block describer"))).
Proof. reflexivity. Qed.

Example getHashesAndSizesFromEvents_pending :
  getHashesAndSizesFromEvents (mockManager getPastEventsMock 0) 3 0
    (Some (BlockTag "pending"))
  = ([GetBlock "pending"], Throws (BlockHasNoNumber "pending")).
Proof. reflexivity. Qed.

Example getBlockNumberFromNumberOrString_latest :
  getBlockNumberFromNumberOrString (mockManager getPastEventsMock 0) (BlockTag "latest")
  = ([GetBlock "latest"], Returns 9).
Proof. reflexivity. Qed.

(* ------------------------------------------------------------------ *)
(** ** The blocks that are queried *)

Lemma queriesNoBlockBefore_app creationBlock t1 t2 :
  queriesNoBlockBefore creationBlock t1 ->
  queriesNoBlockBefore creationBlock t2 ->
  queriesNoBlockBefore creationBlock (t1 ++ t2).
Proof.
  intros H1 H2 a b Hin. apply in_app_or in Hin. destruct Hin; eauto.
Qed.

Lemma recursiveGetPastEvents_number_queries this creationBlock :
  forall fuel a b,
    creationBlock <= a \/ b < a ->
    queriesNoBlockBefore creationBlock
      (trace (recursiveGetPastEvents this fuel a (BlockNumber b))).
Proof.
  induction fuel as [| fuel IH]; intros a b Hab.
  - intros x y [].
  - rewrite trace_recursiveGetPastEvents_number.
    assert (Hhead : queriesNoBlockBefore creationBlock [GetPastEvents a b]).
    { intros x y [Heq | []] n Hn. inversion Heq; subst. lia. }
    change (GetPastEvents a b :: ?l) with ([GetPastEvents a b] ++ l).
    apply queriesNoBlockBefore_app; [exact Hhead |].
    destruct (getPastEvents this a b) as [events | e]; [intros x y [] |].
    destruct (MORE_THAN_XXX_RESULTS_REGEX e); [| intros x y []].
    pose proof (Z.div_mod (a + b) 2 ltac:(lia)) as Hdiv.
    pose proof (Z.mod_pos_bound (a + b) 2 ltac:(lia)) as Hmod.
    apply queriesNoBlockBefore_app; apply IH; lia.
Qed.

Lemma trace_createEthereumMetaData this b tx cost fee gasFee :
  trace (createEthereumMetaData this b tx cost fee gasFee) = [].
Proof.
  unfold createEthereumMetaData.
  destruct (getConfirmationNumber (ethereumBlocks this) b); cbn; [| reflexivity].
  destruct (getBlockTimestamp (ethereumBlocks this) b); reflexivity.
Qed.

Lemma trace_checkAndAddMetaDataToEvent this ev :
  trace (checkAndAddMetaDataToEvent this ev) = [].
Proof.
  unfold checkAndAddMetaDataToEvent.
  destruct (returnValues ev) as [v |]; [| reflexivity].
  destruct (hash v), (feesParameters v); try reflexivity.
  rewrite trace_bind. cbn [await trace fst app].
  destruct (result _); try reflexivity.
  rewrite trace_bind, trace_createEthereumMetaData. cbn [app].
  destruct (result _); reflexivity.
Qed.

Lemma trace_bluebirdMap_checkAndAddMetaDataToEvent this events :
  trace (bluebirdMap (checkAndAddMetaDataToEvent this) events) = [].
Proof.
  induction events as [| ev events IH]; [reflexivity |].
  cbn [bluebirdMap].
  rewrite trace_bind, trace_promiseAll, trace_checkAndAddMetaDataToEvent, IH.
  destruct (result _); reflexivity.
Qed.

(** C9.  [getHashesAndSizesFromEvents] called with [fromBlock] is the call
    with the larger of [fromBlock] and the creation block of the contract:
    the scan is the retrieval that runs from that block to the upper bound,
    followed by the enrichment of the [NewHash] events retrieved.  A
    [fromBlock] below the creation block is replaced by it: the first range
    query then starts at the creation block, and none of the range queries
    issued covers a block before the creation block. *)
Theorem getHashesAndSizesFromEvents_starts_at_creation_block :
  forall (this : SmartContractManager) (fuel : nat) (fromBlock : Z)
         (toBlock : option NumberOrString),
    getHashesAndSizesFromEvents this fuel fromBlock toBlock
    = getHashesAndSizesFromEvents this fuel
        (Z.max fromBlock (creationBlockNumberHashStorage this)) toBlock
    /\
    queriesNoBlockBefore (creationBlockNumberHashStorage this)
      (trace (getHashesAndSizesFromEvents this fuel fromBlock toBlock))
    /\
    getHashesAndSizesFromEvents this fuel fromBlock toBlock
    = (events <- recursiveGetPastEvents this fuel
                   (Z.max fromBlock (creationBlockNumberHashStorage this))
                   (orLatest toBlock) ;;
       bluebirdMap (checkAndAddMetaDataToEvent this) (filter isNewHash events))
    /\
    (forall toBlockNumber : Z,
        fromBlock < creationBlockNumberHashStorage this ->
        (0 < fuel)%nat ->
        result (getBlockNumberFromNumberOrString this (orLatest toBlock))
        = Returns toBlockNumber ->
        hd_error
          (rangeQueries (trace (getHashesAndSizesFromEvents this fuel fromBlock toBlock)))
        = Some (creationBlockNumberHashStorage this, toBlockNumber)).
Proof.
  intros this fuel fromBlock toBlock.
  set (creation := creationBlockNumberHashStorage this).
  assert (Hclamp :
            (if Z.max fromBlock creation <? creation then creation
             else Z.max fromBlock creation)
            = (if fromBlock <? creation then creation else fromBlock)).
  { destruct (Z.ltb_spec (Z.max fromBlock creation) creation);
      destruct (Z.ltb_spec fromBlock creation); lia. }
  assert (Hmax : (if fromBlock <? creation then creation else fromBlock)
                 = Z.max fromBlock creation).
  { destruct (Z.ltb_spec fromBlock creation); lia. }
  split; [| split; [| split]].
  - unfold getHashesAndSizesFromEvents. fold creation. rewrite Hclamp. reflexivity.
  - unfold getHashesAndSizesFromEvents. fold creation.
    set (start := if fromBlock <? creation then creation else fromBlock).
    assert (Hstart : creation <= start).
    { unfold start. destruct (Z.ltb_spec fromBlock creation); lia. }
    rewrite trace_bind.
    apply queriesNoBlockBefore_app.
    + destruct fuel as [| fuel]; [intros x y [] |].
      rewrite trace_recursiveGetPastEvents_resolved.
      apply queriesNoBlockBefore_app.
      * destruct (orLatest toBlock) as [n | describer].
        -- intros x y [].
        -- rewrite getBlockNumberFromNumberOrString_tag.
           intros x y [Heq | []]. discriminate.
      * destruct (result (getBlockNumberFromNumberOrString this (orLatest toBlock)));
          try (intros x y []).
        apply recursiveGetPastEvents_number_queries. left. exact Hstart.
    + destruct (result _); try (intros x y []).
      rewrite trace_bluebirdMap_checkAndAddMetaDataToEvent. intros x y [].
  - unfold getHashesAndSizesFromEvents. fold creation. rewrite Hmax. reflexivity.
  - intros toBlockNumber Hbelow Hfuel Hres.
    unfold getHashesAndSizesFromEvents. fold creation.
    replace (if fromBlock <? creation then creation else fromBlock) with creation
      by (destruct (Z.ltb_spec fromBlock creation); lia).
    destruct fuel as [| fuel]; [lia |].
    rewrite trace_bind, trace_recursiveGetPastEvents_resolved, Hres.
    rewrite trace_recursiveGetPastEvents_number.
    unfold rangeQueries. rewrite !flat_map_app.
    assert (Hlookup :
              flat_map (fun r => match r with
                                 | GetPastEvents a b => [(a, b)]
                                 | GetBlock _ => []
                                 end)
                (trace (getBlockNumberFromNumberOrString this (orLatest toBlock)))
              = []).
    { destruct (orLatest toBlock) as [n | describer]; [reflexivity |].
      rewrite getBlockNumberFromNumberOrString_tag. reflexivity. }
    rewrite Hlookup. reflexivity.
Qed.

(** A scan asked to start at block 0, on a contract created at block 5 of
    the test ledger whose head is block 9: the first range asked for is
    [5..9]. *)
Lemma getHashesAndSizesFromEvents_starts_at_creation_block_witness :
  hd_error
    (rangeQueries
       (trace (getHashesAndSizesFromEvents (mockManager getPastEventsMock 5) 3 0 None)))
  = Some (5, 9).
Proof.
  apply (proj2 (proj2 (proj2 (getHashesAndSizesFromEvents_starts_at_creation_block
                                (mockManager getPastEventsMock 5) 3 0 None))) 9).
  - cbn. lia.
  - lia.
  - reflexivity.
Defined.

(** A scan asked to start at block 0, on a contract created at block 5 of
    the test ledger, starts at block 5. *)
Example getHashesAndSizesFromEvents_clamped :
  trace (getHashesAndSizesFromEvents (mockManager getPastEventsMock 5) 3 0 None)
  = [GetBlock "latest"; GetPastEvents 5 9].
Proof. vm_compute. reflexivity. Qed.

(* ------------------------------------------------------------------ *)
(** ** Time boundaries *)

Lemma trace_resolveBoundaries this options :
  trace (resolveBoundaries this options) = [].
Proof.
  unfold resolveBoundaries.
  destruct (truthy match options with Some o => from o | None => None end);
    destruct (truthy match options with Some o => to o | None => None end);
    repeat match goal with
           | |- context [getBlockNumbersFromTimestamp ?b ?t] =>
               destruct (getBlockNumbersFromTimestamp b t)
           end; reflexivity.
Qed.

(** The guard at work: an upper bound that resolves to a block other than 0
    and below the lower bound is refused, and nothing is asked of the
    ledger. *)
Lemma getHashesAndSizesFromEthereum_refuses_inverted_range
    this fuel options fromBlock toBlock :
  result (resolveBoundaries this options) = Returns (fromBlock, Some toBlock) ->
  toBlock <> 0 ->
  toBlock < fromBlock ->
  getHashesAndSizesFromEthereum this fuel options
  = ([], Throws (ToBlockBelowFromBlock fromBlock toBlock)).
Proof.
  intros Hres Hnz Hlt.
  unfold getHashesAndSizesFromEthereum.
  pose proof (trace_resolveBoundaries this options) as Ht.
  destruct (resolveBoundaries this options) as [t r].
  cbn in Hres, Ht. subst t r.
  cbn [bind fst snd truthy].
  destruct (Z.eqb_spec toBlock 0) as [| _]; [contradiction |].
  destruct (Z.ltb_spec toBlock fromBlock); [reflexivity | lia].
Qed.

(** The guard passed by: an upper bound that resolves to block 0 is not
    compared with the lower bound, and the retrieval runs as if no upper
    bound had been given. *)
Lemma getHashesAndSizesFromEthereum_toBlock_zero this fuel options fromBlock :
  result (resolveBoundaries this options) = Returns (fromBlock, Some 0) ->
  getHashesAndSizesFromEthereum this fuel options
  = getHashesAndSizesFromEvents this fuel fromBlock None.
Proof.
  intros Hres.
  unfold getHashesAndSizesFromEthereum.
  pose proof (trace_resolveBoundaries this options) as Ht.
  destruct (resolveBoundaries this options) as [t r].
  cbn in Hres, Ht. subst t r.
  cbn [bind fst snd truthy Z.eqb option_map].
  destruct (getHashesAndSizesFromEvents this fuel fromBlock (Some (BlockNumber 0)))
    as [t r] eqn:E.
  cbn [app]. rewrite <- E. reflexivity.
Qed.

(** The rejection of the test "rejects if fromBlock is larger than toBlock"
    when the contract was created at block 1. *)
Example getHashesAndSizesFromEthereum_refuses_200_10_from_block_1 :
  getHashesAndSizesFromEthereum (mockManager getPastEventsMock 1) 3
    (Some {| from := Some 200; to := Some 10 |})
  = ([], Throws (ToBlockBelowFromBlock 6 1)).
Proof. reflexivity. Qed.

(** C3, on the failing input.  On the test ledger with the contract created
    at block 0, the boundaries [{from: 200, to: 10}] resolve to
    [fromBlock = 6] and [toBlock = 0].  The upper bound is below the lower
    one, but 0 is falsy: the guard lets the query through, the upper bound
    becomes ['latest'], and the events of the blocks [6..9] are queried and
    returned. *)
Theorem getHashesAndSizesFromEthereum_toBlock_zero_passes_guard :
  let this := mockManager getPastEventsMock 0 in
  let options := Some {| from := Some 200; to := Some 10 |} in
  resolveBoundaries this options = ([], Returns (6, Some 0)) /\
  forall fuel,
    trace (getHashesAndSizesFromEthereum this (S fuel) options)
    = [GetBlock "latest"; GetPastEvents 6 9] /\
    exists entry6 entry9,
      result (getHashesAndSizesFromEthereum this (S fuel) options)
      = Returns [entry6; entry9] /\
      Meta.blockNumber (Entry.meta entry6) = 6 /\
      Meta.blockNumber (Entry.meta entry9) = 9.
Proof.
  cbv zeta. split; [reflexivity |].
  intros fuel. split; [reflexivity |].
  eexists. eexists. split; [reflexivity |]. split; reflexivity.
Qed.

(** The time index modelled from the spec does what the spec says: among
    the blocks from the creation block to the head, [specBlockAfter] is the
    smallest one whose timestamp is at least [t], [specBlockBefore] the
    largest one whose timestamp is at most [t], and the nearest boundary
    when there is none. *)
Lemma find_upwards (p : Z -> bool) : forall n first,
  match find p (map (fun i => first + Z.of_nat i) (seq 0 n)) with
  | Some r =>
      first <= r < first + Z.of_nat n /\ p r = true /\
      forall b, first <= b < r -> p b = false
  | None => forall b, first <= b < first + Z.of_nat n -> p b = false
  end.
Proof.
  induction n as [| n IH]; intros first.
  - cbn. intros b Hb. lia.
  - cbn [seq map find]. rewrite <- seq_shift, map_map.
    replace (first + Z.of_nat 0) with first by lia.
    destruct (p first) eqn:Hp.
    + repeat split; try lia. exact Hp.
    + specialize (IH (first + 1)).
      rewrite (map_ext (fun i => first + 1 + Z.of_nat i)
                 (fun i => first + Z.of_nat (S i))) in IH by (intros i; lia).
      destruct (find p (map (fun i => first + Z.of_nat (S i)) (seq 0 n))) as [r |].
      * destruct IH as [Hr [Hpr Hbelow]]. repeat split; try lia; [exact Hpr |].
        intros b Hb. destruct (Z.eq_dec b first) as [-> | Hne]; [exact Hp |].
        apply Hbelow. lia.
      * intros b Hb. destruct (Z.eq_dec b first) as [-> | Hne]; [exact Hp |].
        apply IH. lia.
Qed.

Lemma find_downwards (p : Z -> bool) first : forall n,
  match find p (rev (map (fun i => first + Z.of_nat i) (seq 0 n))) with
  | Some r =>
      first <= r < first + Z.of_nat n /\ p r = true /\
      forall b, r < b < first + Z.of_nat n -> p b = false
  | None => forall b, first <= b < first + Z.of_nat n -> p b = false
  end.
Proof.
  induction n as [| n IH].
  - cbn. intros b Hb. lia.
  - rewrite seq_S, map_app, rev_app_distr. cbn [map rev app find Nat.add].
    destruct (p (first + Z.of_nat n)) eqn:Hp.
    + repeat split; try lia. exact Hp.
    + destruct (find p (rev (map (fun i => first + Z.of_nat i) (seq 0 n)))) as [r |].
      * destruct IH as [Hr [Hpr Habove]]. repeat split; try lia; [exact Hpr |].
        intros b Hb.
        destruct (Z.eq_dec b (first + Z.of_nat n)) as [-> | Hne]; [exact Hp |].
        apply Habove. lia.
      * intros b Hb.
        destruct (Z.eq_dec b (first + Z.of_nat n)) as [-> | Hne]; [exact Hp |].
        apply IH. lia.
Qed.

Lemma specBlockAfter_smallest timestampOf creationBlock headBlock t :
  creationBlock <= headBlock ->
  let blockAfter := specBlockAfter timestampOf creationBlock headBlock t in
  creationBlock <= blockAfter <= headBlock /\
  ((exists b, creationBlock <= b <= headBlock /\ t <= timestampOf b) ->
   t <= timestampOf blockAfter /\
   forall b, creationBlock <= b < blockAfter -> timestampOf b < t) /\
  ((forall b, creationBlock <= b <= headBlock -> timestampOf b < t) ->
   blockAfter = headBlock).
Proof.
  intros Hrange. unfold specBlockAfter, blocksBetween.
  pose proof (find_upwards (fun b => t <=? timestampOf b)
                (Z.to_nat (headBlock - creationBlock + 1)) creationBlock) as H.
  destruct (find _ _) as [r |]; cbv zeta.
  - destruct H as [Hr [Hpr Hbelow]]. apply Z.leb_le in Hpr.
    split; [lia |]. split.
    + intros _. split; [exact Hpr |].
      intros b Hb. specialize (Hbelow b Hb). apply Z.leb_gt in Hbelow. exact Hbelow.
    + intros Hnone. specialize (Hnone r ltac:(lia)). lia.
  - split; [lia |]. split; [| reflexivity].
    intros [b [Hb Hts]]. specialize (H b ltac:(lia)).
    apply Z.leb_gt in H. lia.
Qed.

Lemma specBlockBefore_largest timestampOf creationBlock headBlock t :
  creationBlock <= headBlock ->
  let blockBefore := specBlockBefore timestampOf creationBlock headBlock t in
  creationBlock <= blockBefore <= headBlock /\
  ((exists b, creationBlock <= b <= headBlock /\ timestampOf b <= t) ->
   timestampOf blockBefore <= t /\
   forall b, blockBefore < b <= headBlock -> t < timestampOf b) /\
  ((forall b, creationBlock <= b <= headBlock -> t < timestampOf b) ->
   blockBefore = creationBlock).
Proof.
  intros Hrange. unfold specBlockBefore, blocksBetween.
  pose proof (find_downwards (fun b => timestampOf b <=? t) creationBlock
                (Z.to_nat (headBlock - creationBlock + 1))) as H.
  destruct (find _ _) as [r |]; cbv zeta.
  - destruct H as [Hr [Hpr Habove]]. apply Z.leb_le in Hpr.
    split; [lia |]. split.
    + intros _. split; [exact Hpr |].
      intros b Hb. specialize (Habove b ltac:(lia)). apply Z.leb_gt in Habove.
      exact Habove.
    + intros Hnone. specialize (Hnone r ltac:(lia)). lia.
  - split; [lia |]. split; [| reflexivity].
    intros [b [Hb Hts]]. specialize (H b ltac:(lia)).
    apply Z.leb_gt in H. lia.
Qed.

(** The three resolutions of the tests, with the contract created at
    block 1 as well. *)
Example resolveBoundaries_from_block_1 :
  result (resolveBoundaries (mockManager getPastEventsMock 1)
            (Some {| from := Some 10; to := Some 299 |}))
  = Returns (1, Some 8).
Proof. reflexivity. Qed.

(** C7, as amended.  With the timestamps [7,30,45,87,100,150,209,234,290,306]
    of the blocks 0..9, [from = 299] resolves to [fromBlock = 9],
    [to = 299] resolves to [toBlock = 8], and [{from: 10, to: 299}]
    resolves to [fromBlock = 1] and [toBlock = 8]: block 1, with timestamp
    30, is the smallest block whose timestamp is at least 10. *)
Theorem resolveBoundaries_of_test_timestamps :
  let this := mockManager getPastEventsMock 0 in
  result (resolveBoundaries this (Some {| from := Some 299; to := None |}))
  = Returns (9, None) /\
  result (resolveBoundaries this (Some {| from := None; to := Some 299 |}))
  = Returns (0, Some 8) /\
  result (resolveBoundaries this (Some {| from := Some 10; to := Some 299 |}))
  = Returns (1, Some 8) /\
  mockTimestampOf 0 < 10 <= mockTimestampOf 1.
Proof.
  cbv zeta. repeat split; try reflexivity; vm_compute; discriminate.
Qed.

(** C7, as stated, fails: [{from: 10, to: 299}] does not resolve to
    [fromBlock = 2]. *)
Lemma resolveBoundaries_from_10_counterexample :
  result (resolveBoundaries (mockManager getPastEventsMock 0)
            (Some {| from := Some 10; to := Some 299 |}))
  <> Returns (2, Some 8).
Proof. vm_compute. discriminate. Qed.

(* ------------------------------------------------------------------ *)
(** ** Enrichment *)


(** An event with its three fields in place is decoded and given its
    metadata. *)
Lemma checkAndAddMetaDataToEvent_defined this ev values h fp :
  returnValues ev = Some values ->
  hash values = Some h ->
  feesParameters values = Some fp ->
  result (checkAndAddMetaDataToEvent this ev) =
  match hexToNumber this fp with
  | Fails text => Throws (External text)
  | Answers size =>
      match result (createEthereumMetaData this (blockNumber ev)
                      (transactionHash ev) None None None) with
      | Returns meta =>
          Returns {| Entry.feesParameters := {| contentSize := size |};
                     Entry.hash := h;
                     Entry.meta := meta |}
      | Throws e => Throws e
      | Pending => Pending
      end
  end.
Proof.
  intros Hv Hh Hfp. unfold checkAndAddMetaDataToEvent.
  rewrite Hv, Hh, Hfp.
  rewrite result_bind. cbn [await result snd].
  destruct (hexToNumber this fp) as [size | text]; cbn [call]; [| reflexivity].
  rewrite result_bind.
  destruct (result (createEthereumMetaData this (blockNumber ev)
                      (transactionHash ev) None None None)); reflexivity.
Qed.



(** A malformed event fails the whole retrieval, whatever precedes it in
    the batch. *)
Example malformed_event_fails_the_batch :
  result (getHashesAndSizesFromEvents
            (mockManager (fun _ _ => Answers (pastEventsMock ++ [badEvent])) 0)
            3 0 None)
  = Throws EventIsIncorrect.
Proof. reflexivity. Qed.

(* ------------------------------------------------------------------ *)
(** ** Lookup of one content hash *)

Lemma findByHash_find contentHash events :
  (forall ev, In ev events -> returnValues ev <> None) ->
  findByHash contentHash events = Returns (find (anchors contentHash) events).
Proof.
  induction events as [| ev events IH]; intros Hrv; [reflexivity |].
  cbn [findByHash find]. unfold anchors at 1.
  destruct (returnValues ev) as [values |] eqn:Hv.
  - destruct (hash values) as [h |].
    + destruct (String.eqb h contentHash); [reflexivity |].
      apply IH. intros ev' Hin. apply Hrv. right. exact Hin.
    + apply IH. intros ev' Hin. apply Hrv. right. exact Hin.
  - exfalso. apply (Hrv ev); [left; reflexivity | exact Hv].
Qed.

Lemma unlimitedQuery_chronological log a b :
  chronological log -> chronological (unlimitedQuery log a b).
Proof.
  unfold chronological, unlimitedQuery.
  induction 1 as [| e l Hs IH Hall]; cbn [filter]; [constructor |].
  destruct (inRange a b e); [| exact IH].
  constructor; [exact IH |].
  apply Forall_forall. intros x Hx.
  apply filter_In in Hx. destruct Hx as [Hx _].
  rewrite Forall_forall in Hall. exact (Hall x Hx).
Qed.

(** In a chronological list, the first element that satisfies a test lies
    in a block no later than any other element that satisfies it. *)
Lemma find_chronological_earliest (p : Event -> bool) events ev :
  chronological events ->
  find p events = Some ev ->
  forall ev', In ev' events -> p ev' = true -> blockNumber ev <= blockNumber ev'.
Proof.
  unfold chronological.
  induction 1 as [| e l Hs IH Hall]; intros Hfind ev' Hin Hp; [discriminate |].
  cbn [find] in Hfind.
  destruct (p e) eqn:Hpe.
  - injection Hfind as <-.
    destruct Hin as [<- | Hin]; [lia |].
    rewrite Forall_forall in Hall. exact (Hall ev' Hin).
  - destruct Hin as [<- | Hin]; [congruence |].
    exact (IH Hfind ev' Hin Hp).
Qed.

(** C6.  Over a chronological log whose events carry their return values,
    behind a provider that answers or overflows and answers single blocks,
    with ['latest'] resolving to [head]: [getMetaFromEthereum] looks through
    the events of the blocks from the creation block to [head]; it returns
    the metadata of the first event whose hash is the content hash, which
    lies in the earliest block among the events with that hash, and it
    throws "contentHash not indexed on ethereum" when there is none. *)
Theorem getMetaFromEthereum_returns_earliest_anchoring :
  forall (this : SmartContractManager) (log : list Event)
         (contentHash : string) (head : Z) (fuel : nat),
    chronological log ->
    answersOrOverflows this log ->
    answersSingleBlocks this ->
    (forall ev, In ev log -> returnValues ev <> None) ->
    result (getBlockNumberFromNumberOrString this (BlockTag "latest")) = Returns head ->
    (Z.to_nat (head - creationBlockNumberHashStorage this) < fuel)%nat ->
    let history := unlimitedQuery log (creationBlockNumberHashStorage this) head in
    (forall ev,
        find (anchors contentHash) history = Some ev ->
        result (getMetaFromEthereum this fuel contentHash)
        = result (createEthereumMetaData this (blockNumber ev)
                    (transactionHash ev) None None None)
        /\
        forall ev', In ev' history -> anchors contentHash ev' = true ->
                    blockNumber ev <= blockNumber ev')
    /\
    (find (anchors contentHash) history = None ->
     result (getMetaFromEthereum this fuel contentHash) = Throws ContentHashNotIndexed).
Proof.
  intros this log contentHash head fuel Hlog Hans Hsingle Hrv Hhead Hfuel history.
  assert (Hevents :
            result (recursiveGetPastEvents this fuel
                      (creationBlockNumberHashStorage this) (BlockTag "latest"))
            = Returns history).
  { apply (retrieval_returns_unlimited_query this log); assumption. }
  assert (Hfind : findByHash contentHash history
                  = Returns (find (anchors contentHash) history)).
  { apply findByHash_find. intros ev Hin. apply Hrv.
    unfold history, unlimitedQuery in Hin. apply filter_In in Hin. tauto. }
  assert (Hresult :
            result (getMetaFromEthereum this fuel contentHash) =
            match find (anchors contentHash) history with
            | None => Throws ContentHashNotIndexed
            | Some ev =>
                result (createEthereumMetaData this (blockNumber ev)
                          (transactionHash ev) None None None)
            end).
  { unfold getMetaFromEthereum.
    rewrite result_bind, Hevents, result_bind.
    cbn [await result snd]. rewrite Hfind.
    destruct (find (anchors contentHash) history); reflexivity. }
  split.
  - intros ev Hev. split.
    + rewrite Hresult, Hev. reflexivity.
    + apply (find_chronological_earliest (anchors contentHash) history ev);
        [apply unlimitedQuery_chronological; exact Hlog | exact Hev].
  - intros Hnone. rewrite Hresult, Hnone. reflexivity.
Qed.

Lemma pastEventsMock_returnValues :
  forall ev, In ev pastEventsMock -> returnValues ev <> None.
Proof.
  intros ev [<- | [<- | [<- | [<- | []]]]]; discriminate.
Qed.

(** The content of the tests was anchored in the blocks 0 and 4: the
    metadata of block 0 is returned. *)
Lemma getMetaFromEthereum_returns_earliest_anchoring_witness :
  result (getMetaFromEthereum
            (mockManager (limitedGetPastEvents 1 pastEventsMock) 0) 10 hashStr)
  = Returns
      {| Meta.blockConfirmation := 9;
         Meta.blockNumber := 0;
         Meta.blockTimestamp := 7;
         Meta.cost := None;
         Meta.fee := None;
         Meta.gasFee := None;
         Meta.networkName := "private";
         Meta.smartContractAddress := "0x345ca3e014aaf5dca488057592ee47305d9b3e10";
         Meta.transactionHash := "0xa" |}.
Proof.
  refine (proj1 (proj1 (getMetaFromEthereum_returns_earliest_anchoring
                   (mockManager (limitedGetPastEvents 1 pastEventsMock) 0)
                   pastEventsMock hashStr 9 10
                   pastEventsMock_chronological
                   (limited_mock_answersOrOverflows 0)
                   (limited_mock_answersSingleBlocks 0)
                   pastEventsMock_returnValues
                   eq_refl _)
                 (newHash 0 hashStr realSizeBytes32Hex "0xa") eq_refl)).
  vm_compute. lia.
Defined.

Example getMetaFromEthereum_not_indexed :
  result (getMetaFromEthereum (mockManager getPastEventsMock 0) 3 "empty")
  = Throws ContentHashNotIndexed.
Proof. reflexivity. Qed.

Example getMetaFromEthereum_message :
  toString ContentHashNotIndexed = "Error: contentHash not indexed on ethereum".
Proof. reflexivity. Qed.

(* ------------------------------------------------------------------ *)
(** ** Submission *)



Section SubmissionProperties.

Variable this : SmartContractManager.
Variables fee gasPriceToUse : Z.

Local Abbreviation step := (onSignal this fee gasPriceToUse).
Local Abbreviation run := (runSignals this fee gasPriceToUse).
Local Abbreviation construct := (createMetaDataOfReceipt this fee gasPriceToUse).

Lemma runSignals_app s l1 l2 : run s (l1 ++ l2) = run (run s l1) l2.
Proof. unfold runSignals. apply fold_left_app. Qed.

(** A settled promise stays as it is under every signal. *)
Lemma onSignal_settled s sig :
  isSettled (submitted s) = true ->
  submitted (step s sig) = submitted s.
Proof.
  intros Hs. destruct sig as [t | n r | n blocks]; cbn.
  - destruct (submitted s); [discriminate | reflexivity | reflexivity].
  - unfold onConfirmation. destruct (ethereumMetadataCreated s); reflexivity.
  - unfold onMetadataSettled.
    destruct (takeCreating n (creating s)) as [[receipt others] |]; [| reflexivity].
    destruct (construct blocks receipt); cbn; try reflexivity.
    + destruct (submitted s); [discriminate | reflexivity | reflexivity].
    + destruct (n >=? CREATING_ETHEREUM_METADATA_MAX_ATTEMPTS); cbn; [| reflexivity].
      destruct (submitted s); [discriminate | reflexivity | reflexivity].
Qed.

Lemma runSignals_settled signals : forall s,
  isSettled (submitted s) = true ->
  submitted (run s signals) = submitted s.
Proof.
  induction signals as [| sig signals IH]; intros s Hs; [reflexivity |].
  cbn [runSignals fold_left].
  change (fold_left step signals (step s sig)) with (run (step s sig) signals).
  rewrite IH; rewrite onSignal_settled; auto.
Qed.









End SubmissionProperties.

(** Once sent, the submission is what the callbacks make of the promise. *)
Lemma addHashAndSizeToEthereum_sent
    this contentHash feesParameters gasPrice fee gasPriceToUse signals :
  sent this feesParameters gasPrice fee gasPriceToUse ->
  result (addHashAndSizeToEthereum this contentHash feesParameters gasPrice signals)
  = awaitPromise
      (submitted (runSignals this fee gasPriceToUse newSubmission signals)).
Proof.
  intros [[account [others [Hacc Hne]]] [Hfee Hgas]].
  unfold addHashAndSizeToEthereum, getMainAccount.
  rewrite Hacc. cbn [call await bind app]. rewrite Hne.
  cbn [ret bind app]. rewrite Hfee. cbn [call await bind app].
  destruct (truthy gasPrice) as [price |].
  - injection Hgas as ->. reflexivity.
  - rewrite Hgas. reflexivity.
Qed.



Lemma mockManager_sent provider creationBlock feesParameters :
  sent (mockManager provider creationBlock) feesParameters None 100 1.
Proof.
  split; [| split; reflexivity].
  eexists. eexists. split; reflexivity.
Qed.



Example addHashAndSizeToEthereum_maximum_message :
  result (addHashAndSizeToEthereum (mockManager getPastEventsMock 0) hashStr
            {| contentSize := 29 |} None
            [OnConfirmation 23 minedReceipt; MetadataSettled 23 laggingEthereumBlocks])
  = Throws (MaximumConfirmationReached
              (ErrorGettingBlockConfirmation (External "Error: block not found")))
  /\
  toString (MaximumConfirmationReached
              (ErrorGettingBlockConfirmation (External "Error: block not found")))
  = "Error: Maximum number of confirmation reached: Error: Error getting block confirmation number: Error: block not found".
Proof. split; reflexivity. Qed.

(** Below the maximum a failed construction is waited over: confirmation 22
    leaves the submission pending, confirmation 23 ends it. *)
Example addHashAndSizeToEthereum_below_maximum :
  CREATING_ETHEREUM_METADATA_MAX_ATTEMPTS = 23 /\
  result (addHashAndSizeToEthereum (mockManager getPastEventsMock 0) hashStr
            {| contentSize := 29 |} None
            [OnConfirmation 22 minedReceipt; MetadataSettled 22 laggingEthereumBlocks])
  = Pending.
Proof. split; reflexivity. Qed.

(** A transaction that is refused. *)
Example addHashAndSizeToEthereum_transaction_error :
  result (addHashAndSizeToEthereum (mockManager getPastEventsMock 0) hashStr
            {| contentSize := 29 |} None [OnError "nonce too low"])
  = Throws (EthereumTransactionError "nonce too low").
Proof. reflexivity. Qed.

(** A submission confirmed once, with the block service up to date. *)
Example addHashAndSizeToEthereum_resolves :
  result (addHashAndSizeToEthereum (mockManager getPastEventsMock 0) hashStr
            {| contentSize := 29 |} None
            [OnConfirmation 1 minedReceipt; MetadataSettled 1 (mockEthereumBlocks 0)])
  = Returns
      {| Meta.blockConfirmation := 0;
         Meta.blockNumber := 9;
         Meta.blockTimestamp := 306;
         Meta.cost := Some "21100";
         Meta.fee := Some "100";
         Meta.gasFee := Some "21000";
         Meta.networkName := "private";
         Meta.smartContractAddress := "0x345ca3e014aaf5dca488057592ee47305d9b3e10";
         Meta.transactionHash :=
           "0x7c45c575a54893dc8dc7230e3044e1de5c8714cd0a1374cf3a66378c639627a3" |}.
Proof. reflexivity. Qed.




(* ================================================================== *)
(** * Further properties *)

(* ------------------------------------------------------------------ *)
(** ** Range-split retrieval: the queries and the errors *)

(** X1.  The retrieval of a range [a..b] (empty at most by one block) asks
    the provider only for ranges inside [a..b]: no range query starts
    before [a], ends after [b], or is more than empty. *)
Theorem recursiveGetPastEvents_queries_within_range :
  forall (this : SmartContractManager) (fuel : nat) (a b : Z),
    a <= b + 1 ->
    forall x y,
      In (GetPastEvents x y)
        (trace (recursiveGetPastEvents this fuel a (BlockNumber b))) ->
      a <= x /\ y <= b /\ x <= y + 1.
Proof.
  intros this. induction fuel as [| fuel IH]; intros a b Hab x y Hin.
  - destruct Hin.
  - rewrite trace_recursiveGetPastEvents_number in Hin.
    destruct Hin as [Heq | Hin]; [inversion Heq; subst; lia |].
    destruct (getPastEvents this a b) as [events | e]; [destruct Hin |].
    destruct (MORE_THAN_XXX_RESULTS_REGEX e); [| destruct Hin].
    pose proof (Z.div_mod (a + b) 2 ltac:(lia)) as Hdiv.
    pose proof (Z.mod_pos_bound (a + b) 2 ltac:(lia)) as Hmod.
    apply in_app_or in Hin. destruct Hin as [Hin | Hin].
    + specialize (IH a ((a + b) / 2) ltac:(lia) x y Hin). lia.
    + specialize (IH ((a + b) / 2 + 1) b ltac:(lia) x y Hin). lia.
Qed.

(** The range [0..9] of the second configuration of the tests, and its
    query of the blocks [5..7]. *)
Lemma recursiveGetPastEvents_queries_within_range_witness :
  In (GetPastEvents 5 7)
    (trace (recursiveGetPastEvents
              (mockManager (noMoreThan1000ResultsGetPastEventsMock txPerBlockConfiguration2) 0)
              10 0 (BlockNumber 9))) /\
  (0 <= 5 /\ 7 <= 9 /\ 5 <= 7 + 1).
Proof.
  assert (Hin : In (GetPastEvents 5 7)
                  (trace (recursiveGetPastEvents
                            (mockManager
                               (noMoreThan1000ResultsGetPastEventsMock
                                  txPerBlockConfiguration2) 0)
                            10 0 (BlockNumber 9)))).
  { vm_compute. do 7 right. left. reflexivity. }
  split; [exact Hin |].
  apply (recursiveGetPastEvents_queries_within_range
           (mockManager (noMoreThan1000ResultsGetPastEventsMock txPerBlockConfiguration2) 0)
           10 0 9 ltac:(lia) 5 7 Hin).
Defined.

(** With single blocks answered, what the retrieval of a range of at least
    one block records are range queries only, each of at least one block
    and inside the range. *)
Lemma recursiveGetPastEvents_asks_inside this :
  answersSingleBlocks this ->
  forall fuel a b,
    a <= b ->
    forall r,
      In r (trace (recursiveGetPastEvents this fuel a (BlockNumber b))) ->
      exists x y, r = GetPastEvents x y /\ a <= x /\ x <= y /\ y <= b.
Proof.
  intros Hsingle. induction fuel as [| fuel IH]; intros a b Hab r Hin.
  - destruct Hin.
  - rewrite trace_recursiveGetPastEvents_number in Hin.
    destruct Hin as [<- | Hin]; [exists a, b; repeat split; lia |].
    destruct (getPastEvents this a b) as [events | e] eqn:Hq; [destruct Hin |].
    destruct (MORE_THAN_XXX_RESULTS_REGEX e); [| destruct Hin].
    destruct (midpoint_splits a b (Hsingle a b e Hq)) as [Hlo Hhi].
    apply in_app_or in Hin. destruct Hin as [Hin | Hin].
    + destruct (IH a ((a + b) / 2) Hlo r Hin) as [x [y [-> H]]].
      exists x, y. split; [reflexivity | lia].
    + destruct (IH ((a + b) / 2 + 1) b ltac:(lia) r Hin) as [x [y [-> H]]].
      exists x, y. split; [reflexivity | lia].
Qed.

(** X2.  When no range of one block ends in a failure, the retrieval of a
    range of [n] blocks asks for at most [2 n - 1] ranges, and never for
    the same range twice, whatever the provider answers on larger ranges.
    What is counted are the ranges handed to the retried query
    ([Utils.retry], which may send a range to the node more than once), not
    the requests sent to the node. *)
Theorem recursiveGetPastEvents_asks_distinct_ranges :
  forall (this : SmartContractManager) (fuel : nat) (a b : Z),
    answersSingleBlocks this ->
    a <= b ->
    NoDup (trace (recursiveGetPastEvents this fuel a (BlockNumber b))) /\
    Z.of_nat (List.length
                (trace (recursiveGetPastEvents this fuel a (BlockNumber b))))
    <= 2 * (b - a + 1) - 1.
Proof.
  intros this fuel a b Hsingle. revert a b.
  induction fuel as [| fuel IH]; intros a b Hab.
  - cbn [recursiveGetPastEvents trace fst List.length]. split; [constructor | lia].
  - rewrite trace_recursiveGetPastEvents_number.
    destruct (getPastEvents this a b) as [events | e] eqn:Hq.
    { split; [constructor; [intros [] | constructor] | cbn [List.length]; lia]. }
    destruct (MORE_THAN_XXX_RESULTS_REGEX e).
    2: { split; [constructor; [intros [] | constructor] | cbn [List.length]; lia]. }
    pose proof (Hsingle a b e Hq) as Hlt.
    destruct (midpoint_splits a b Hlt) as [Hlo Hhi].
    destruct (IH a ((a + b) / 2) Hlo) as [Hnd1 Hlen1].
    destruct (IH ((a + b) / 2 + 1) b ltac:(lia)) as [Hnd2 Hlen2].
    pose proof (recursiveGetPastEvents_asks_inside this Hsingle fuel
                  a ((a + b) / 2) Hlo) as Hin1.
    pose proof (recursiveGetPastEvents_asks_inside this Hsingle fuel
                  ((a + b) / 2 + 1) b ltac:(lia)) as Hin2.
    split.
    + constructor.
      * intros Hin. apply in_app_or in Hin. destruct Hin as [Hin | Hin].
        -- destruct (Hin1 _ Hin) as [x [y [Heq H]]]. injection Heq as <- <-. lia.
        -- destruct (Hin2 _ Hin) as [x [y [Heq H]]]. injection Heq as <- <-. lia.
      * apply NoDup_app; [exact Hnd1 | exact Hnd2 |].
        intros r Hr1 Hr2.
        destruct (Hin1 r Hr1) as [x [y [-> H1]]].
        destruct (Hin2 _ Hr2) as [x' [y' [Heq H2]]]. injection Heq as <- <-. lia.
    + cbn [List.length]. rewrite length_app. lia.
Qed.

(** The range [0..9] of the test ledger behind a provider that returns at
    most one event per query: 7 ranges are asked for. *)
Lemma recursiveGetPastEvents_asks_distinct_ranges_witness :
  List.length
    (trace (recursiveGetPastEvents
              (mockManager (limitedGetPastEvents 1 pastEventsMock) 0)
              10 0 (BlockNumber 9))) = 7%nat /\
  NoDup (trace (recursiveGetPastEvents
                  (mockManager (limitedGetPastEvents 1 pastEventsMock) 0)
                  10 0 (BlockNumber 9))) /\
  Z.of_nat (List.length
              (trace (recursiveGetPastEvents
                        (mockManager (limitedGetPastEvents 1 pastEventsMock) 0)
                        10 0 (BlockNumber 9))))
  <= 2 * (9 - 0 + 1) - 1.
Proof.
  split; [vm_compute; reflexivity |].
  apply (recursiveGetPastEvents_asks_distinct_ranges
           (mockManager (limitedGetPastEvents 1 pastEventsMock) 0) 10 0 9).
  - exact (limited_mock_answersSingleBlocks 0).
  - lia.
Defined.

(** X3.  The only errors the retrieval of a numeric range throws are the
    provider's own: an error of one of the range queries it issued, whose
    text does not match the overflow pattern.  An overflow is never
    surfaced. *)
Theorem recursiveGetPastEvents_throws_provider_errors_only :
  forall (this : SmartContractManager) (fuel : nat) (a b : Z) (e : error),
    result (recursiveGetPastEvents this fuel a (BlockNumber b)) = Throws e ->
    exists x y text,
      In (GetPastEvents x y)
        (trace (recursiveGetPastEvents this fuel a (BlockNumber b))) /\
      getPastEvents this x y = Fails text /\
      MORE_THAN_XXX_RESULTS_REGEX text = false /\
      e = External text.
Proof.
  intros this. induction fuel as [| fuel IH]; intros a b e Hthrow; [discriminate |].
  rewrite result_recursiveGetPastEvents_number in Hthrow.
  rewrite trace_recursiveGetPastEvents_number.
  destruct (getPastEvents this a b) as [events | text] eqn:Hq; [discriminate |].
  destruct (MORE_THAN_XXX_RESULTS_REGEX text) eqn:Hre.
  - destruct (result (recursiveGetPastEvents this fuel a (BlockNumber ((a + b) / 2))))
      as [first | e1 |] eqn:E1.
    + destruct (result (recursiveGetPastEvents this fuel ((a + b) / 2 + 1)
                          (BlockNumber b))) as [second | e2 |] eqn:E2;
        try discriminate.
      injection Hthrow as <-.
      destruct (IH _ _ _ E2) as [x [y [t [Hin H]]]].
      exists x, y, t. split; [| exact H].
      right. apply in_or_app. right. exact Hin.
    + injection Hthrow as <-.
      destruct (IH _ _ _ E1) as [x [y [t [Hin H]]]].
      exists x, y, t. split; [| exact H].
      right. apply in_or_app. left. exact Hin.
    + destruct (result (recursiveGetPastEvents this fuel ((a + b) / 2 + 1)
                          (BlockNumber b))) as [second | e2 |] eqn:E2;
        try discriminate.
      injection Hthrow as <-.
      destruct (IH _ _ _ E2) as [x [y [t [Hin H]]]].
      exists x, y, t. split; [| exact H].
      right. apply in_or_app. right. exact Hin.
  - injection Hthrow as <-.
    exists a, b, text. split; [left; reflexivity |]. auto.
Qed.

Lemma recursiveGetPastEvents_throws_provider_errors_only_witness :
  exists x y text,
    In (GetPastEvents x y)
      (trace (recursiveGetPastEvents (mockManager timeoutAbove5 0) 3 0 (BlockNumber 9))) /\
    getPastEvents (mockManager timeoutAbove5 0) x y = Fails text /\
    MORE_THAN_XXX_RESULTS_REGEX text = false /\
    External "Error: Web3 getPastEvents connection timeout" = External text.
Proof.
  apply (recursiveGetPastEvents_throws_provider_errors_only
           (mockManager timeoutAbove5 0) 3 0 9).
  reflexivity.
Defined.

(* ------------------------------------------------------------------ *)
(** ** Metadata and enrichment *)

Lemma result_createEthereumMetaData this b tx cost fee gasFee :
  result (createEthereumMetaData this b tx cost fee gasFee) =
  match getConfirmationNumber (ethereumBlocks this) b with
  | Fails text => Throws (ErrorGettingBlockConfirmation (External text))
  | Answers blockConfirmation =>
      match getBlockTimestamp (ethereumBlocks this) b with
      | Fails text => Throws (ErrorGettingBlockTimestamp b (External text))
      | Answers blockTimestamp =>
          Returns {| Meta.blockConfirmation := blockConfirmation;
                     Meta.blockNumber := b;
                     Meta.blockTimestamp := blockTimestamp;
                     Meta.cost := cost;
                     Meta.fee := fee;
                     Meta.gasFee := gasFee;
                     Meta.networkName := networkName this;
                     Meta.smartContractAddress := hashStorageAddress this;
                     Meta.transactionHash := tx |}
      end
  end.
Proof.
  unfold createEthereumMetaData.
  destruct (getConfirmationNumber (ethereumBlocks this) b); cbn; [| reflexivity].
  destruct (getBlockTimestamp (ethereumBlocks this) b); reflexivity.
Qed.

Lemma result_checkAndAddMetaDataToEvent_settles this ev :
  result (checkAndAddMetaDataToEvent this ev) <> Pending.
Proof.
  unfold checkAndAddMetaDataToEvent.
  destruct (returnValues ev) as [values |]; [| discriminate].
  destruct (hash values) as [h |]; [| discriminate].
  destruct (feesParameters values) as [fp |]; [| discriminate].
  rewrite result_bind. cbn [await result snd].
  destruct (hexToNumber this fp); cbn [call]; [| discriminate].
  rewrite result_bind, result_createEthereumMetaData.
  destruct (getConfirmationNumber (ethereumBlocks this) (blockNumber ev));
    [| discriminate].
  destruct (getBlockTimestamp (ethereumBlocks this) (blockNumber ev)); discriminate.
Qed.

Lemma checkAndAddMetaDataToEvent_enriches this ev entry :
  result (checkAndAddMetaDataToEvent this ev) = Returns entry
  <-> enriches this ev entry.
Proof.
  unfold enriches. split.
  - intros Hret.
    destruct (returnValues ev) as [values |] eqn:Hv;
      [| unfold checkAndAddMetaDataToEvent in Hret; rewrite Hv in Hret; discriminate].
    destruct (hash values) as [h |] eqn:Hh;
      [| unfold checkAndAddMetaDataToEvent in Hret; rewrite Hv, Hh in Hret;
         discriminate].
    destruct (feesParameters values) as [fp |] eqn:Hfp;
      [| unfold checkAndAddMetaDataToEvent in Hret; rewrite Hv, Hh, Hfp in Hret;
         discriminate].
    rewrite (checkAndAddMetaDataToEvent_defined this ev values h fp Hv Hh Hfp) in Hret.
    rewrite result_createEthereumMetaData in Hret.
    destruct (hexToNumber this fp) as [size | text] eqn:Hsize; [| discriminate].
    destruct (getConfirmationNumber (ethereumBlocks this) (blockNumber ev))
      as [conf | text] eqn:Hconf; [| discriminate].
    destruct (getBlockTimestamp (ethereumBlocks this) (blockNumber ev))
      as [ts | text] eqn:Hts; [| discriminate].
    injection Hret as <-. cbn.
    exists values, fp. repeat split; assumption.
  - intros [values [fp [Hv [Hh [Hfp [Hsize [Hconf [Hts
             [Hb [Htx [Hnet [Haddr [Hcost [Hfee Hgas]]]]]]]]]]]]]].
    rewrite (checkAndAddMetaDataToEvent_defined this ev values _ fp Hv Hh Hfp).
    rewrite result_createEthereumMetaData, Hsize, Hconf, Hts.
    destruct entry as [[size] h meta]. destruct meta. cbn in *. subst.
    reflexivity.
Qed.

(** X4.  [checkAndAddMetaDataToEvent] returns an entry exactly when the
    event carries a hash and fees parameters that decode, and both lookups
    of its block answer; the entry then has the hash, the decoded size, the
    block, the transaction, the confirmations and the timestamp of the
    event, the network and the contract of the manager, and no cost, fee or
    gas fee. *)
Theorem checkAndAddMetaDataToEvent_returns_iff :
  forall (this : SmartContractManager) (ev : Event) (entry : Entry.t),
    result (checkAndAddMetaDataToEvent this ev) = Returns entry
    <-> enriches this ev entry.
Proof. intros. apply checkAndAddMetaDataToEvent_enriches. Qed.

(** [Bluebird.map] returns exactly when every call of the mapper returns,
    with the values in the order of the items. *)
Lemma result_bluebirdMap_returns {A B} (mapper : A -> async B) :
  forall items values,
    result (bluebirdMap mapper items) = Returns values
    <-> Forall2 (fun item value => result (mapper item) = Returns value) items values.
Proof.
  induction items as [| item items IH]; intros values.
  - cbn. split.
    + intros H. injection H as <-. constructor.
    + intros H. inversion H. reflexivity.
  - cbn [bluebirdMap]. rewrite result_bind, result_promiseAll.
    split.
    + intros H.
      destruct (result (mapper item)) as [v | e |] eqn:Hv;
        destruct (result (bluebirdMap mapper items)) as [vs | e' |] eqn:Hvs;
        try discriminate.
      cbn in H. injection H as <-.
      constructor; [exact Hv |]. apply IH. reflexivity.
    + intros H. inversion H as [| x v l vs Hx Hl]; subst.
      rewrite Hx. apply IH in Hl. rewrite Hl. reflexivity.
Qed.

(** It throws as soon as one call of the mapper throws, when no call stays
    pending. *)
Lemma result_bluebirdMap_throws {A B} (mapper : A -> async B) :
  (forall item, result (mapper item) <> Pending) ->
  forall items,
    (exists item e, In item items /\ result (mapper item) = Throws e) ->
    exists e, result (bluebirdMap mapper items) = Throws e.
Proof.
  intros Hsettles.
  induction items as [| item items IH]; intros [bad [e [Hin Hbad]]]; [destruct Hin |].
  cbn [bluebirdMap]. rewrite result_bind, result_promiseAll.
  destruct (result (mapper item)) as [v | e1 |] eqn:Hv.
  - destruct Hin as [-> | Hin]; [congruence |].
    destruct (IH (ex_intro _ bad (ex_intro _ e (conj Hin Hbad)))) as [e' ->].
    eauto.
  - eauto.
  - exfalso. exact (Hsettles item Hv).
Qed.

Lemma result_getHashesAndSizesFromEvents this fuel fromBlock toBlock :
  result (getHashesAndSizesFromEvents this fuel fromBlock toBlock) =
  match result (recursiveGetPastEvents this fuel
                  (Z.max fromBlock (creationBlockNumberHashStorage this))
                  (orLatest toBlock)) with
  | Returns events =>
      result (bluebirdMap (checkAndAddMetaDataToEvent this) (filter isNewHash events))
  | Throws e => Throws e
  | Pending => Pending
  end.
Proof.
  unfold getHashesAndSizesFromEvents.
  replace (if fromBlock <? creationBlockNumberHashStorage this
           then creationBlockNumberHashStorage this else fromBlock)
    with (Z.max fromBlock (creationBlockNumberHashStorage this))
    by (destruct (Z.ltb_spec fromBlock (creationBlockNumberHashStorage this)); lia).
  rewrite result_bind. reflexivity.
Qed.

Lemma entries_of_events this fuel fromBlock toBlock events entries :
  result (recursiveGetPastEvents this fuel
            (Z.max fromBlock (creationBlockNumberHashStorage this))
            (orLatest toBlock)) = Returns events ->
  (result (getHashesAndSizesFromEvents this fuel fromBlock toBlock) = Returns entries
   <-> Forall2 (enriches this) (filter isNewHash events) entries).
Proof.
  intros Hevents.
  rewrite result_getHashesAndSizesFromEvents, Hevents.
  rewrite result_bluebirdMap_returns.
  split; intros H.
  - eapply Forall2_impl; [| exact H].
    intros ev entry. apply checkAndAddMetaDataToEvent_enriches.
  - eapply Forall2_impl; [| exact H].
    intros ev entry. apply checkAndAddMetaDataToEvent_enriches.
Qed.

(** X5.  When the retrieval of the events returns, [getHashesAndSizesFromEvents]
    returns a list of entries exactly when every [NewHash] event is enriched
    into the entry at its place: one entry per [NewHash] event, in the order
    of the events; the events of another name are left out, whatever they
    carry. *)
Theorem getHashesAndSizesFromEvents_returns_iff :
  forall (this : SmartContractManager) (fuel : nat) (fromBlock : Z)
         (toBlock : option NumberOrString) (events : list Event)
         (entries : list Entry.t),
    result (recursiveGetPastEvents this fuel
              (Z.max fromBlock (creationBlockNumberHashStorage this))
              (orLatest toBlock)) = Returns events ->
    (result (getHashesAndSizesFromEvents this fuel fromBlock toBlock) = Returns entries
     <-> Forall2 (enriches this) (filter isNewHash events) entries).
Proof. intros. apply entries_of_events. assumption. Qed.

(** An anchoring next to an event of another contract that carries no
    return values. *)
Lemma getHashesAndSizesFromEvents_returns_iff_witness :
  Forall2 (enriches (mockManager (fun _ _ => Answers mixedEvents) 0))
    (filter isNewHash mixedEvents)
    [ {| Entry.feesParameters := {| contentSize := 0 |};
         Entry.hash := "";
         Entry.meta :=
           {| Meta.blockConfirmation := 5;
              Meta.blockNumber := 4;
              Meta.blockTimestamp := 100;
              Meta.cost := None;
              Meta.fee := None;
              Meta.gasFee := None;
              Meta.networkName := "private";
              Meta.smartContractAddress := "0x345ca3e014aaf5dca488057592ee47305d9b3e10";
              Meta.transactionHash := "0xd" |} |} ].
Proof.
  apply (proj1 (getHashesAndSizesFromEvents_returns_iff
                  (mockManager (fun _ _ => Answers mixedEvents) 0) 3 0 None
                  mixedEvents _ eq_refl)).
  reflexivity.
Defined.

(** X6.  One [NewHash] event without return values, without hash or without
    fees parameters among the events retrieved, and the whole call throws:
    no partial list is returned, however many well-formed events come
    before it. *)
Theorem getHashesAndSizesFromEvents_fails_on_incorrect_event :
  forall (this : SmartContractManager) (fuel : nat) (fromBlock : Z)
         (toBlock : option NumberOrString) (events : list Event) (ev : Event),
    result (recursiveGetPastEvents this fuel
              (Z.max fromBlock (creationBlockNumberHashStorage this))
              (orLatest toBlock)) = Returns events ->
    In ev events ->
    isNewHash ev = true ->
    (returnValues ev = None \/
     exists values,
       returnValues ev = Some values /\
       (hash values = None \/ feesParameters values = None)) ->
    exists e,
      result (getHashesAndSizesFromEvents this fuel fromBlock toBlock) = Throws e.
Proof.
  intros this fuel fromBlock toBlock events ev Hevents Hin Hnew Hbad.
  rewrite result_getHashesAndSizesFromEvents, Hevents.
  apply result_bluebirdMap_throws.
  - apply result_checkAndAddMetaDataToEvent_settles.
  - exists ev, EventIsIncorrect. split.
    + apply filter_In. split; assumption.
    + unfold checkAndAddMetaDataToEvent.
      destruct Hbad as [-> | [values [-> [-> | Hfp]]]]; try reflexivity.
      rewrite Hfp. destruct (hash values); reflexivity.
Qed.

Lemma getHashesAndSizesFromEvents_fails_on_incorrect_event_witness :
  exists e,
    result (getHashesAndSizesFromEvents
              (mockManager (fun _ _ => Answers (pastEventsMock ++ [badEvent])) 0)
              3 0 None)
    = Throws e.
Proof.
  apply (getHashesAndSizesFromEvents_fails_on_incorrect_event
           (mockManager (fun _ _ => Answers (pastEventsMock ++ [badEvent])) 0)
           3 0 None (pastEventsMock ++ [badEvent]) badEvent).
  - reflexivity.
  - apply in_or_app. right. left. reflexivity.
  - reflexivity.
  - right. eexists. split; [reflexivity |]. left. reflexivity.
Defined.

Lemma retrieval_of_listing this log fuel fromBlock toBlock toBlockNumber :
  chronological log ->
  answersOrOverflows this log ->
  answersSingleBlocks this ->
  result (getBlockNumberFromNumberOrString this (orLatest toBlock))
  = Returns toBlockNumber ->
  (Z.to_nat (toBlockNumber - Z.max fromBlock (creationBlockNumberHashStorage this))
   < fuel)%nat ->
  forall entries,
    result (getHashesAndSizesFromEvents this fuel fromBlock toBlock) = Returns entries
    <-> Forall2 (enriches this)
          (filter isNewHash
             (unlimitedQuery log
                (Z.max fromBlock (creationBlockNumberHashStorage this))
                toBlockNumber))
          entries.
Proof.
  intros Hlog Hans Hsingle Hto Hfuel entries.
  apply entries_of_events.
  apply (retrieval_returns_unlimited_query this log); assumption.
Qed.

(** X7.  Over a chronological log, behind a provider that answers or
    overflows and answers single blocks, with the upper bound resolving to
    [toBlockNumber]: what [getHashesAndSizesFromEvents] returns is the
    enrichment, event by event and in order, of the [NewHash] events of the
    blocks from the larger of [fromBlock] and the creation block to
    [toBlockNumber], however the range had to be split. *)
Theorem getHashesAndSizesFromEvents_lists_the_range :
  forall (this : SmartContractManager) (log : list Event) (fuel : nat)
         (fromBlock : Z) (toBlock : option NumberOrString) (toBlockNumber : Z),
    chronological log ->
    answersOrOverflows this log ->
    answersSingleBlocks this ->
    result (getBlockNumberFromNumberOrString this (orLatest toBlock))
    = Returns toBlockNumber ->
    (Z.to_nat (toBlockNumber - Z.max fromBlock (creationBlockNumberHashStorage this))
     < fuel)%nat ->
    forall entries,
      result (getHashesAndSizesFromEvents this fuel fromBlock toBlock) = Returns entries
      <-> Forall2 (enriches this)
            (filter isNewHash
               (unlimitedQuery log
                  (Z.max fromBlock (creationBlockNumberHashStorage this))
                  toBlockNumber))
            entries.
Proof. intros. apply retrieval_of_listing; assumption. Qed.

(** The events of the tests from block 5 on, behind the provider limited to
    one event per query: the anchorings of the blocks 6 and 9. *)
Lemma getHashesAndSizesFromEvents_lists_the_range_witness :
  exists entry6 entry9,
    result (getHashesAndSizesFromEvents
              (mockManager (limitedGetPastEvents 1 pastEventsMock) 0) 10 5 None)
    = Returns [entry6; entry9] /\
    Forall2 (enriches (mockManager (limitedGetPastEvents 1 pastEventsMock) 0))
      (filter isNewHash (unlimitedQuery pastEventsMock 5 9)) [entry6; entry9].
Proof.
  eexists. eexists. split; [vm_compute; reflexivity |].
  apply (proj1 (getHashesAndSizesFromEvents_lists_the_range
                  (mockManager (limitedGetPastEvents 1 pastEventsMock) 0)
                  pastEventsMock 10 5 None 9
                  pastEventsMock_chronological
                  (limited_mock_answersOrOverflows 0)
                  (limited_mock_answersSingleBlocks 0)
                  eq_refl ltac:(vm_compute; lia) _)).
  vm_compute. reflexivity.
Defined.

(* ------------------------------------------------------------------ *)
(** ** Lookup of one content hash: what comes back *)

Lemma findByHash_found contentHash : forall events ev,
  findByHash contentHash events = Returns (Some ev) ->
  In ev events /\ anchors contentHash ev = true.
Proof.
  induction events as [| element rest IH]; intros ev Hfind; [discriminate |].
  cbn [findByHash] in Hfind.
  destruct (returnValues element) as [values |] eqn:Hv; [| discriminate].
  destruct (hash values) as [h |] eqn:Hh.
  - destruct (String.eqb h contentHash) eqn:Heq.
    + injection Hfind as <-. split; [left; reflexivity |].
      unfold anchors. rewrite Hv, Hh. exact Heq.
    + destruct (IH ev Hfind). split; [right |]; assumption.
  - destruct (IH ev Hfind). split; [right |]; assumption.
Qed.

Lemma result_getMetaFromEthereum this fuel contentHash :
  result (getMetaFromEthereum this fuel contentHash) =
  match result (recursiveGetPastEvents this fuel
                  (creationBlockNumberHashStorage this) (BlockTag "latest")) with
  | Returns events =>
      match findByHash contentHash events with
      | Returns (Some ev) =>
          result (createEthereumMetaData this (blockNumber ev) (transactionHash ev)
                    None None None)
      | Returns None => Throws ContentHashNotIndexed
      | Throws e => Throws e
      | Pending => Pending
      end
  | Throws e => Throws e
  | Pending => Pending
  end.
Proof.
  unfold getMetaFromEthereum. rewrite result_bind.
  destruct (result (recursiveGetPastEvents this fuel
                      (creationBlockNumberHashStorage this) (BlockTag "latest")))
    as [events | e |]; try reflexivity.
  rewrite result_bind. cbn [await result snd].
  destruct (findByHash contentHash events) as [[ev |] | e |]; reflexivity.
Qed.

(** X8.  Whatever the provider does, a metadata that [getMetaFromEthereum]
    returns belongs to an event that was retrieved and carries the content
    hash: it has the block and the transaction of that event, the
    confirmations and the timestamp that the block service gives for that
    block, the network and the contract of the manager, and no cost, fee or
    gas fee. *)
Theorem getMetaFromEthereum_returns_metadata_of_an_anchoring :
  forall (this : SmartContractManager) (fuel : nat) (contentHash : string)
         (meta : Meta.t),
    result (getMetaFromEthereum this fuel contentHash) = Returns meta ->
    exists events ev,
      result (recursiveGetPastEvents this fuel
                (creationBlockNumberHashStorage this) (BlockTag "latest"))
      = Returns events /\
      In ev events /\
      anchors contentHash ev = true /\
      Meta.blockNumber meta = blockNumber ev /\
      Meta.transactionHash meta = transactionHash ev /\
      getConfirmationNumber (ethereumBlocks this) (blockNumber ev)
      = Answers (Meta.blockConfirmation meta) /\
      getBlockTimestamp (ethereumBlocks this) (blockNumber ev)
      = Answers (Meta.blockTimestamp meta) /\
      Meta.networkName meta = networkName this /\
      Meta.smartContractAddress meta = hashStorageAddress this /\
      Meta.cost meta = None /\ Meta.fee meta = None /\ Meta.gasFee meta = None.
Proof.
  intros this fuel contentHash meta Hret.
  rewrite result_getMetaFromEthereum in Hret.
  destruct (result (recursiveGetPastEvents this fuel
                      (creationBlockNumberHashStorage this) (BlockTag "latest")))
    as [events | e |]; try discriminate.
  destruct (findByHash contentHash events) as [[ev |] | e |] eqn:Hfind;
    try discriminate.
  destruct (findByHash_found contentHash events ev Hfind) as [Hin Hanchors].
  rewrite result_createEthereumMetaData in Hret.
  destruct (getConfirmationNumber (ethereumBlocks this) (blockNumber ev))
    as [conf | text] eqn:Hconf; [| discriminate].
  destruct (getBlockTimestamp (ethereumBlocks this) (blockNumber ev))
    as [ts | text] eqn:Hts; [| discriminate].
  injection Hret as <-.
  exists events, ev. cbn. repeat split; assumption || reflexivity.
Qed.

Lemma getMetaFromEthereum_returns_metadata_of_an_anchoring_witness :
  exists events ev,
    result (recursiveGetPastEvents (mockManager getPastEventsMock 0) 3 0
              (BlockTag "latest")) = Returns events /\
    In ev events /\
    anchors otherContent ev = true /\
    6 = blockNumber ev /\
    "0xc" = transactionHash ev /\
    getConfirmationNumber (mockEthereumBlocks 0) (blockNumber ev) = Answers 3 /\
    getBlockTimestamp (mockEthereumBlocks 0) (blockNumber ev) = Answers 209 /\
    "private" = "private" /\
    "0x345ca3e014aaf5dca488057592ee47305d9b3e10"
    = "0x345ca3e014aaf5dca488057592ee47305d9b3e10" /\
    @None string = None /\ @None string = None /\ @None string = None.
Proof.
  apply (getMetaFromEthereum_returns_metadata_of_an_anchoring
           (mockManager getPastEventsMock 0) 3 otherContent
           {| Meta.blockConfirmation := 3;
              Meta.blockNumber := 6;
              Meta.blockTimestamp := 209;
              Meta.cost := None;
              Meta.fee := None;
              Meta.gasFee := None;
              Meta.networkName := "private";
              Meta.smartContractAddress := "0x345ca3e014aaf5dca488057592ee47305d9b3e10";
              Meta.transactionHash := "0xc" |}).
  reflexivity.
Defined.

Lemma findByHash_undefined_returnValues contentHash : forall pre ev post,
  Forall (fun element => anchors contentHash element = false /\
                         returnValues element <> None) pre ->
  returnValues ev = None ->
  findByHash contentHash (pre ++ ev :: post)
  = Throws (TypeError "Cannot read property 'hash' of undefined").
Proof.
  induction pre as [| element pre IH]; intros ev post Hpre Hev.
  - cbn. rewrite Hev. reflexivity.
  - inversion Hpre as [| x l [Hno Hrv] Hrest]; subst.
    cbn [app findByHash]. unfold anchors in Hno.
    destruct (returnValues element) as [values |]; [| congruence].
    destruct (hash values) as [h |]; [rewrite Hno |]; apply IH; assumption.
Qed.

(** X9.  [getMetaFromEthereum] reads the hash of every event up to the
    first match without checking the event: an event without return values
    that comes before any match makes the lookup throw a [TypeError], even
    when an anchoring of the content hash follows. *)
Theorem getMetaFromEthereum_undefined_returnValues :
  forall (this : SmartContractManager) (fuel : nat) (contentHash : string)
         (pre post : list Event) (ev : Event),
    result (recursiveGetPastEvents this fuel
              (creationBlockNumberHashStorage this) (BlockTag "latest"))
    = Returns (pre ++ ev :: post) ->
    Forall (fun element => anchors contentHash element = false /\
                           returnValues element <> None) pre ->
    returnValues ev = None ->
    result (getMetaFromEthereum this fuel contentHash)
    = Throws (TypeError "Cannot read property 'hash' of undefined").
Proof.
  intros this fuel contentHash pre post ev Hevents Hpre Hev.
  rewrite result_getMetaFromEthereum, Hevents.
  rewrite (findByHash_undefined_returnValues contentHash pre ev post Hpre Hev).
  reflexivity.
Qed.

Lemma getMetaFromEthereum_undefined_returnValues_witness :
  result (getMetaFromEthereum (mockManager (fun _ _ => Answers mixedEvents) 0) 3 "")
  = Throws (TypeError "Cannot read property 'hash' of undefined").
Proof.
  apply (getMetaFromEthereum_undefined_returnValues
           (mockManager (fun _ _ => Answers mixedEvents) 0) 3 ""
           [] [emptyAnchoring] foreignEvent).
  - reflexivity.
  - constructor.
  - reflexivity.
Defined.

(* ------------------------------------------------------------------ *)
(** ** Listing by time boundaries *)

Lemma getHashesAndSizesFromEvents_queries this fuel fromBlock toBlock :
  queriesNoBlockBefore (creationBlockNumberHashStorage this)
    (trace (getHashesAndSizesFromEvents this fuel fromBlock toBlock)).
Proof.
  unfold getHashesAndSizesFromEvents.
  set (creation := creationBlockNumberHashStorage this).
  set (start := if fromBlock <? creation then creation else fromBlock).
  assert (Hstart : creation <= start).
  { unfold start. destruct (Z.ltb_spec fromBlock creation); lia. }
  rewrite trace_bind.
  apply queriesNoBlockBefore_app.
  - destruct fuel as [| fuel]; [intros x y [] |].
    rewrite trace_recursiveGetPastEvents_resolved.
    apply queriesNoBlockBefore_app.
    + destruct (orLatest toBlock) as [n | describer].
      * intros x y [].
      * rewrite getBlockNumberFromNumberOrString_tag.
        intros x y [Heq | []]. discriminate.
    + destruct (result (getBlockNumberFromNumberOrString this (orLatest toBlock)));
        try (intros x y []).
      apply recursiveGetPastEvents_number_queries. left. exact Hstart.
  - destruct (result _); try (intros x y []).
    rewrite trace_bluebirdMap_checkAndAddMetaDataToEvent. intros x y [].
Qed.

(** X10.  Whatever the time boundaries and whatever blocks the time index
    gives for them, no range query of [getHashesAndSizesFromEthereum] covers
    a block before the creation block of the contract. *)
Theorem getHashesAndSizesFromEthereum_starts_at_creation_block :
  forall (this : SmartContractManager) (fuel : nat)
         (options : option ITimestampBoundaries),
    queriesNoBlockBefore (creationBlockNumberHashStorage this)
      (trace (getHashesAndSizesFromEthereum this fuel options)).
Proof.
  intros this fuel options.
  unfold getHashesAndSizesFromEthereum.
  rewrite trace_bind, trace_resolveBoundaries. cbn [app].
  destruct (result (resolveBoundaries this options)) as [[fromBlock toBlock] | e |];
    try (intros x y []).
  cbn [fst snd].
  destruct (truthy toBlock) as [t |].
  - destruct (t <? fromBlock); [intros x y [] |].
    apply getHashesAndSizesFromEvents_queries.
  - apply getHashesAndSizesFromEvents_queries.
Qed.

(** X11.  A boundary that is absent or is the timestamp 0 is not looked up:
    without any other boundary the listing is that of all the events from
    the creation block on, and the time index is not consulted. *)
Theorem getHashesAndSizesFromEthereum_without_boundaries :
  forall (this : SmartContractManager) (fuel : nat)
         (options : option ITimestampBoundaries),
    truthy (match options with Some o => from o | None => None end) = None ->
    truthy (match options with Some o => to o | None => None end) = None ->
    getHashesAndSizesFromEthereum this fuel options
    = getHashesAndSizesFromEvents this fuel (creationBlockNumberHashStorage this) None.
Proof.
  intros this fuel options Hfrom Hto.
  unfold getHashesAndSizesFromEthereum, resolveBoundaries.
  rewrite Hfrom, Hto. cbn [ret bind app fst snd truthy option_map].
  destruct (getHashesAndSizesFromEvents this fuel
              (creationBlockNumberHashStorage this) None) as [t r].
  reflexivity.
Qed.

(** The boundaries [{from: 0}] on a block service that answers nothing. *)
Lemma getHashesAndSizesFromEthereum_without_boundaries_witness :
  getHashesAndSizesFromEthereum
    (withBlocks (mockManager getPastEventsMock 0) laggingEthereumBlocks) 3
    (Some {| from := Some 0; to := None |})
  = getHashesAndSizesFromEvents
      (withBlocks (mockManager getPastEventsMock 0) laggingEthereumBlocks) 3 0 None.
Proof.
  apply (getHashesAndSizesFromEthereum_without_boundaries
           (withBlocks (mockManager getPastEventsMock 0) laggingEthereumBlocks) 3
           (Some {| from := Some 0; to := None |}));
    reflexivity.
Defined.

(** X12.  When the boundaries resolve to [fromBlock] and to a [toBlock]
    other than 0 that is not below it, over a chronological log behind a
    provider that answers or overflows and answers single blocks: what
    [getHashesAndSizesFromEthereum] returns is the enrichment, in order, of
    the [NewHash] events of the blocks from the larger of [fromBlock] and
    the creation block to [toBlock]. *)
Theorem getHashesAndSizesFromEthereum_lists_the_boundaries :
  forall (this : SmartContractManager) (log : list Event) (fuel : nat)
         (options : option ITimestampBoundaries) (fromBlock toBlock : Z),
    chronological log ->
    answersOrOverflows this log ->
    answersSingleBlocks this ->
    result (resolveBoundaries this options) = Returns (fromBlock, Some toBlock) ->
    toBlock <> 0 ->
    fromBlock <= toBlock ->
    (Z.to_nat (toBlock - Z.max fromBlock (creationBlockNumberHashStorage this))
     < fuel)%nat ->
    forall entries,
      result (getHashesAndSizesFromEthereum this fuel options) = Returns entries
      <-> Forall2 (enriches this)
            (filter isNewHash
               (unlimitedQuery log
                  (Z.max fromBlock (creationBlockNumberHashStorage this)) toBlock))
            entries.
Proof.
  intros this log fuel options fromBlock toBlock Hlog Hans Hsingle Hres Hnz Hle
         Hfuel entries.
  assert (Hsame :
            result (getHashesAndSizesFromEthereum this fuel options)
            = result (getHashesAndSizesFromEvents this fuel fromBlock
                        (Some (BlockNumber toBlock)))).
  { unfold getHashesAndSizesFromEthereum.
    rewrite result_bind, Hres. cbn [fst snd truthy option_map].
    destruct (Z.eqb_spec toBlock 0) as [| _]; [contradiction |].
    destruct (Z.ltb_spec toBlock fromBlock); [lia | reflexivity]. }
  rewrite Hsame.
  apply (retrieval_of_listing this log fuel fromBlock (Some (BlockNumber toBlock))
           toBlock); try assumption.
  cbn [orLatest]. destruct (Z.eqb_spec toBlock 0) as [| _]; [contradiction |].
  reflexivity.
Qed.

(** The boundaries [{from: 10, to: 299}] of the tests resolve to the blocks
    1 and 8: the anchorings of the blocks 4 and 6. *)
Lemma getHashesAndSizesFromEthereum_lists_the_boundaries_witness :
  exists entry4 entry6,
    result (getHashesAndSizesFromEthereum
              (mockManager (limitedGetPastEvents 1 pastEventsMock) 0) 10
              (Some {| from := Some 10; to := Some 299 |}))
    = Returns [entry4; entry6] /\
    Forall2 (enriches (mockManager (limitedGetPastEvents 1 pastEventsMock) 0))
      (filter isNewHash (unlimitedQuery pastEventsMock 1 8)) [entry4; entry6].
Proof.
  eexists. eexists. split; [vm_compute; reflexivity |].
  apply (proj1 (getHashesAndSizesFromEthereum_lists_the_boundaries
                  (mockManager (limitedGetPastEvents 1 pastEventsMock) 0)
                  pastEventsMock 10
                  (Some {| from := Some 10; to := Some 299 |}) 1 8
                  pastEventsMock_chronological
                  (limited_mock_answersOrOverflows 0)
                  (limited_mock_answersSingleBlocks 0)
                  eq_refl ltac:(discriminate) ltac:(lia)
                  ltac:(vm_compute; lia) _)).
  vm_compute. reflexivity.
Defined.

(* ------------------------------------------------------------------ *)
(** ** Submission: where the outcome comes from *)

Lemma takeCreating_found n : forall l receipt others,
  takeCreating n l = Some (receipt, others) ->
  In (n, receipt) l /\ forall x, In x others -> In x l.
Proof.
  induction l as [| [m r] l IH]; intros receipt others Htake; [discriminate |].
  cbn [takeCreating] in Htake.
  destruct (Z.eqb_spec m n) as [-> | Hne].
  - injection Htake as <- <-. split; [left; reflexivity | intros x Hx; right; exact Hx].
  - destruct (takeCreating n l) as [[found rest] |] eqn:E; [| discriminate].
    injection Htake as <- <-.
    destruct (IH found rest eq_refl) as [Hin Hsub].
    split; [right; exact Hin |].
    intros x [<- | Hx]; [left; reflexivity | right; apply Hsub; exact Hx].
Qed.

Lemma onSignal_accountedFor this fee gasPriceToUse seen s sig :
  accountedFor this fee gasPriceToUse seen s ->
  accountedFor this fee gasPriceToUse (seen ++ [sig])
    (onSignal this fee gasPriceToUse s sig).
Proof.
  intros [Hcreating [Hresolved Hrejected]].
  assert (Hseen : forall x, In x seen -> In x (seen ++ [sig])).
  { intros x Hx. apply in_or_app. left. exact Hx. }
  assert (Hsig : In sig (seen ++ [sig])).
  { apply in_or_app. right. left. reflexivity. }
  assert (Hcreating' : forall n receipt,
             In (n, receipt) (creating s) ->
             In (OnConfirmation n receipt) (seen ++ [sig])).
  { intros n receipt Hin. apply Hseen, Hcreating, Hin. }
  assert (Hresolved' : forall meta,
             submitted s = Resolved meta ->
             exists n receipt blocks,
               In (OnConfirmation n receipt) (seen ++ [sig]) /\
               In (MetadataSettled n blocks) (seen ++ [sig]) /\
               createMetaDataOfReceipt this fee gasPriceToUse blocks receipt
               = Returns meta).
  { intros meta Hm. destruct (Hresolved meta Hm) as [n [r [b [H1 [H2 H3]]]]].
    exists n, r, b. auto. }
  assert (Hrejected' : forall e,
             submitted s = Rejected e ->
             (exists transactionError,
                 In (OnError transactionError) (seen ++ [sig]) /\
                 e = EthereumTransactionError transactionError) \/
             (exists n receipt blocks cause,
                 In (OnConfirmation n receipt) (seen ++ [sig]) /\
                 In (MetadataSettled n blocks) (seen ++ [sig]) /\
                 CREATING_ETHEREUM_METADATA_MAX_ATTEMPTS <= n /\
                 createMetaDataOfReceipt this fee gasPriceToUse blocks receipt
                 = Throws cause /\
                 e = MaximumConfirmationReached cause)).
  { intros e He. destruct (Hrejected e He) as [[t [H1 H2]] | [n [r [b [c H]]]]].
    - left. exists t. auto.
    - right. exists n, r, b, c. intuition. }
  destruct sig as [t | n receipt | n blocks]; cbn [onSignal].
  - (* error *)
    unfold onError. split; [exact Hcreating' |]. cbn [submitted].
    destruct (submitted s) as [| meta0 | e0] eqn:Hp; cbn [reject].
    + split; [intros meta Hm; discriminate |].
      intros e He. injection He as <-. left. exists t. auto.
    + split; [exact Hresolved' | intros e He; discriminate].
    + split; [intros meta Hm; discriminate | exact Hrejected'].
  - (* confirmation *)
    unfold onConfirmation.
    destruct (ethereumMetadataCreated s); cbn [negb];
      [split; [exact Hcreating' | split; [exact Hresolved' | exact Hrejected']] |].
    split; [| split; [exact Hresolved' | exact Hrejected']].
    cbn [creating]. intros m r Hin. apply in_app_or in Hin.
    destruct Hin as [Hin | [Heq | []]]; [apply Hcreating', Hin |].
    injection Heq as <- <-. exact Hsig.
  - (* a construction settles *)
    unfold onMetadataSettled.
    destruct (takeCreating n (creating s)) as [[receipt others] |] eqn:Htake;
      [| split; [exact Hcreating' | split; [exact Hresolved' | exact Hrejected']]].
    destruct (takeCreating_found n _ _ _ Htake) as [Hin Hsub].
    assert (Hothers : forall m r, In (m, r) others ->
                                  In (OnConfirmation m r) (seen ++ [MetadataSettled n blocks])).
    { intros m r Hx. apply Hcreating', Hsub, Hx. }
    destruct (createMetaDataOfReceipt this fee gasPriceToUse blocks receipt)
      as [meta0 | cause |] eqn:Hconstruct.
    + split; [exact Hothers |]. cbn [submitted].
      destruct (submitted s) as [| meta1 | e1] eqn:Hp; cbn [resolve].
      * split; [| intros e He; discriminate].
        intros meta Hm. injection Hm as <-.
        exists n, receipt, blocks. auto.
      * split; [exact Hresolved' | intros e He; discriminate].
      * split; [intros meta Hm; discriminate | exact Hrejected'].
    + destruct (Z.geb_spec n CREATING_ETHEREUM_METADATA_MAX_ATTEMPTS) as [Hn | Hn].
      * split; [exact Hothers |]. cbn [submitted].
        destruct (submitted s) as [| meta1 | e1] eqn:Hp; cbn [reject].
        -- split; [intros meta Hm; discriminate |].
           intros e He. injection He as <-. right.
           exists n, receipt, blocks, cause. repeat split; auto; lia.
        -- split; [exact Hresolved' | intros e He; discriminate].
        -- split; [intros meta Hm; discriminate | exact Hrejected'].
      * split; [exact Hothers | split; [exact Hresolved' | exact Hrejected']].
    + split; [exact Hcreating' | split; [exact Hresolved' | exact Hrejected']].
Qed.

Lemma runSignals_accountedFor this fee gasPriceToUse signals : forall seen s,
  accountedFor this fee gasPriceToUse seen s ->
  accountedFor this fee gasPriceToUse (seen ++ signals)
    (runSignals this fee gasPriceToUse s signals).
Proof.
  induction signals as [| sig signals IH]; intros seen s Hs.
  - rewrite app_nil_r. exact Hs.
  - cbn [runSignals fold_left].
    replace (seen ++ sig :: signals) with ((seen ++ [sig]) ++ signals)
      by (rewrite <- app_assoc; reflexivity).
    apply (IH (seen ++ [sig])). apply onSignal_accountedFor. exact Hs.
Qed.

Lemma newSubmission_accountedFor this fee gasPriceToUse signals :
  accountedFor this fee gasPriceToUse signals
    (runSignals this fee gasPriceToUse newSubmission signals).
Proof.
  apply (runSignals_accountedFor this fee gasPriceToUse signals [] newSubmission).
  split; [intros n r [] |]. split; intros x Hx; discriminate Hx.
Qed.

(** X13.  The metadata that a submission returns is built from the receipt
    of one of the confirmation signals, by a construction that settled: it
    has the block and the transaction of that receipt, the fee, the gas fee
    [gasUsed * gasPriceToUse] and their sum as the cost. *)
Theorem addHashAndSizeToEthereum_returns_metadata_of_a_receipt :
  forall (this : SmartContractManager) (contentHash : string)
         (feesParameters : IFeesParameters) (gasPrice : option Z)
         (fee gasPriceToUse : Z) (signals : list signal) (meta : Meta.t),
    sent this feesParameters gasPrice fee gasPriceToUse ->
    result (addHashAndSizeToEthereum this contentHash feesParameters gasPrice signals)
    = Returns meta ->
    exists n receipt blocks,
      In (OnConfirmation n receipt) signals /\
      In (MetadataSettled n blocks) signals /\
      Meta.blockNumber meta = Receipt.blockNumber receipt /\
      Meta.transactionHash meta = Receipt.transactionHash receipt /\
      Meta.fee meta = Some (decimal fee) /\
      Meta.gasFee meta = Some (decimal (Receipt.gasUsed receipt * gasPriceToUse)) /\
      Meta.cost meta
      = Some (decimal (Receipt.gasUsed receipt * gasPriceToUse + fee)) /\
      getConfirmationNumber blocks (Receipt.blockNumber receipt)
      = Answers (Meta.blockConfirmation meta) /\
      getBlockTimestamp blocks (Receipt.blockNumber receipt)
      = Answers (Meta.blockTimestamp meta).
Proof.
  intros this contentHash feesParameters gasPrice fee gasPriceToUse signals meta
         Hsent Hret.
  rewrite (addHashAndSizeToEthereum_sent this contentHash feesParameters gasPrice
             fee gasPriceToUse signals Hsent) in Hret.
  destruct (newSubmission_accountedFor this fee gasPriceToUse signals)
    as [_ [Hresolved _]].
  destruct (submitted (runSignals this fee gasPriceToUse newSubmission signals))
    as [| meta0 | e0]; try discriminate.
  injection Hret as ->.
  destruct (Hresolved meta eq_refl) as [n [receipt [blocks [Hconf [Hsettle Hbuilt]]]]].
  exists n, receipt, blocks.
  unfold createMetaDataOfReceipt in Hbuilt.
  rewrite result_createEthereumMetaData in Hbuilt. cbn [ethereumBlocks withBlocks] in Hbuilt.
  destruct (getConfirmationNumber blocks (Receipt.blockNumber receipt))
    as [conf | text]; [| discriminate].
  destruct (getBlockTimestamp blocks (Receipt.blockNumber receipt))
    as [ts | text]; [| discriminate].
  injection Hbuilt as <-. cbn. repeat split; assumption || reflexivity.
Qed.

Lemma addHashAndSizeToEthereum_returns_metadata_of_a_receipt_witness :
  exists n receipt blocks,
    In (OnConfirmation n receipt)
      [OnConfirmation 1 minedReceipt; MetadataSettled 1 (mockEthereumBlocks 0)] /\
    In (MetadataSettled n blocks)
      [OnConfirmation 1 minedReceipt; MetadataSettled 1 (mockEthereumBlocks 0)] /\
    9 = Receipt.blockNumber receipt /\
    "0x7c45c575a54893dc8dc7230e3044e1de5c8714cd0a1374cf3a66378c639627a3"
    = Receipt.transactionHash receipt /\
    Some "100" = Some (decimal 100) /\
    Some "21000" = Some (decimal (Receipt.gasUsed receipt * 1)) /\
    Some "21100" = Some (decimal (Receipt.gasUsed receipt * 1 + 100)) /\
    getConfirmationNumber blocks (Receipt.blockNumber receipt) = Answers 0 /\
    getBlockTimestamp blocks (Receipt.blockNumber receipt) = Answers 306.
Proof.
  apply (addHashAndSizeToEthereum_returns_metadata_of_a_receipt
           (mockManager getPastEventsMock 0) hashStr {| contentSize := 29 |} None
           100 1
           [OnConfirmation 1 minedReceipt; MetadataSettled 1 (mockEthereumBlocks 0)]
           {| Meta.blockConfirmation := 0;
              Meta.blockNumber := 9;
              Meta.blockTimestamp := 306;
              Meta.cost := Some "21100";
              Meta.fee := Some "100";
              Meta.gasFee := Some "21000";
              Meta.networkName := "private";
              Meta.smartContractAddress := "0x345ca3e014aaf5dca488057592ee47305d9b3e10";
              Meta.transactionHash :=
                "0x7c45c575a54893dc8dc7230e3044e1de5c8714cd0a1374cf3a66378c639627a3" |}).
  - apply mockManager_sent.
  - reflexivity.
Defined.

(** X14.  A submission that is sent fails in two ways only: with the error
    of an error signal, or with "Maximum number of confirmation reached"
    for a construction that failed and that a confirmation numbered 23 or
    more had started.  Below that number a failed construction never fails
    the submission. *)
Theorem addHashAndSizeToEthereum_throws_for_two_reasons :
  forall (this : SmartContractManager) (contentHash : string)
         (feesParameters : IFeesParameters) (gasPrice : option Z)
         (fee gasPriceToUse : Z) (signals : list signal) (e : error),
    sent this feesParameters gasPrice fee gasPriceToUse ->
    result (addHashAndSizeToEthereum this contentHash feesParameters gasPrice signals)
    = Throws e ->
    (exists transactionError,
        In (OnError transactionError) signals /\
        e = EthereumTransactionError transactionError) \/
    (exists n receipt blocks cause,
        In (OnConfirmation n receipt) signals /\
        In (MetadataSettled n blocks) signals /\
        CREATING_ETHEREUM_METADATA_MAX_ATTEMPTS <= n /\
        createMetaDataOfReceipt this fee gasPriceToUse blocks receipt = Throws cause /\
        e = MaximumConfirmationReached cause).
Proof.
  intros this contentHash feesParameters gasPrice fee gasPriceToUse signals e
         Hsent Hthrow.
  rewrite (addHashAndSizeToEthereum_sent this contentHash feesParameters gasPrice
             fee gasPriceToUse signals Hsent) in Hthrow.
  destruct (newSubmission_accountedFor this fee gasPriceToUse signals)
    as [_ [_ Hrejected]].
  destruct (submitted (runSignals this fee gasPriceToUse newSubmission signals))
    as [| meta0 | e0]; try discriminate.
  injection Hthrow as ->.
  exact (Hrejected e eq_refl).
Qed.

Lemma addHashAndSizeToEthereum_throws_for_two_reasons_witness :
  (exists transactionError,
      In (OnError transactionError)
        [OnConfirmation 1 minedReceipt; OnError "nonce too low"] /\
      EthereumTransactionError "nonce too low"
      = EthereumTransactionError transactionError) \/
  (exists n receipt blocks cause,
      In (OnConfirmation n receipt)
        [OnConfirmation 1 minedReceipt; OnError "nonce too low"] /\
      In (MetadataSettled n blocks)
        [OnConfirmation 1 minedReceipt; OnError "nonce too low"] /\
      CREATING_ETHEREUM_METADATA_MAX_ATTEMPTS <= n /\
      createMetaDataOfReceipt (mockManager getPastEventsMock 0) 100 1 blocks receipt
      = Throws cause /\
      EthereumTransactionError "nonce too low" = MaximumConfirmationReached cause).
Proof.
  apply (addHashAndSizeToEthereum_throws_for_two_reasons
           (mockManager getPastEventsMock 0) hashStr {| contentSize := 29 |} None
           100 1 [OnConfirmation 1 minedReceipt; OnError "nonce too low"]).
  - apply mockManager_sent.
  - reflexivity.
Defined.

Lemma runSignals_onlyConfirmations this fee gasPriceToUse signals : forall s,
  onlyConfirmations signals ->
  submitted (runSignals this fee gasPriceToUse s signals) = submitted s.
Proof.
  induction signals as [| sig signals IH]; intros s Hall; [reflexivity |].
  inversion Hall as [| x l [n [receipt ->]] Hrest]; subst.
  cbn [runSignals fold_left].
  change (fold_left (onSignal this fee gasPriceToUse) signals ?s')
    with (runSignals this fee gasPriceToUse s' signals).
  rewrite (IH _ Hrest). cbn [onSignal]. unfold onConfirmation.
  destruct (ethereumMetadataCreated s); reflexivity.
Qed.

(** X15.  An error signal that arrives before any metadata construction has
    settled fails the submission with "Ethereum transaction error",
    whatever the confirmations before it and whatever follows, a successful
    construction included. *)
Theorem addHashAndSizeToEthereum_transaction_error_first :
  forall (this : SmartContractManager) (contentHash : string)
         (feesParameters : IFeesParameters) (gasPrice : option Z)
         (fee gasPriceToUse : Z) (pre post : list signal)
         (transactionError : string),
    sent this feesParameters gasPrice fee gasPriceToUse ->
    onlyConfirmations pre ->
    result (addHashAndSizeToEthereum this contentHash feesParameters gasPrice
              (pre ++ OnError transactionError :: post))
    = Throws (EthereumTransactionError transactionError).
Proof.
  intros this contentHash feesParameters gasPrice fee gasPriceToUse pre post
         transactionError Hsent Hpre.
  rewrite (addHashAndSizeToEthereum_sent this contentHash feesParameters gasPrice
             fee gasPriceToUse _ Hsent).
  rewrite runSignals_app. cbn [runSignals fold_left].
  change (fold_left (onSignal this fee gasPriceToUse) post ?s')
    with (runSignals this fee gasPriceToUse s' post).
  change (fold_left (onSignal this fee gasPriceToUse) pre newSubmission)
    with (runSignals this fee gasPriceToUse newSubmission pre).
  assert (Herr : submitted (onSignal this fee gasPriceToUse
                              (runSignals this fee gasPriceToUse newSubmission pre)
                              (OnError transactionError))
                 = Rejected (EthereumTransactionError transactionError)).
  { cbn [onSignal onError submitted].
    rewrite (runSignals_onlyConfirmations this fee gasPriceToUse pre newSubmission Hpre).
    reflexivity. }
  rewrite runSignals_settled by (rewrite Herr; reflexivity).
  rewrite Herr. reflexivity.
Qed.

Lemma addHashAndSizeToEthereum_transaction_error_first_witness :
  result (addHashAndSizeToEthereum (mockManager getPastEventsMock 0) hashStr
            {| contentSize := 29 |} None
            ([OnConfirmation 1 minedReceipt] ++
             OnError "nonce too low" ::
             [MetadataSettled 1 (mockEthereumBlocks 0)]))
  = Throws (EthereumTransactionError "nonce too low").
Proof.
  apply (addHashAndSizeToEthereum_transaction_error_first
           (mockManager getPastEventsMock 0) hashStr {| contentSize := 29 |} None
           100 1 [OnConfirmation 1 minedReceipt]
           [MetadataSettled 1 (mockEthereumBlocks 0)] "nonce too low").
  - apply mockManager_sent.
  - constructor; [| constructor]. eexists. eexists. reflexivity.
Defined.

(** With a gas price given and other than 0, a submission that returns was
    sent with that price. *)
Lemma addHashAndSizeToEthereum_returns_sent
    this contentHash feesParameters price signals meta :
  price <> 0 ->
  result (addHashAndSizeToEthereum this contentHash feesParameters (Some price) signals)
  = Returns meta ->
  exists fee, sent this feesParameters (Some price) fee price.
Proof.
  intros Hprice Hret.
  unfold addHashAndSizeToEthereum, getMainAccount in Hret.
  unfold sent.
  destruct (getAccounts this) as [[| account others] | text];
    try discriminate Hret.
  cbn [call await bind app] in Hret.
  destruct (String.eqb account "") eqn:Hne; [discriminate Hret |].
  cbn [ret bind app] in Hret.
  destruct (getFeesAmount this (contentSize feesParameters)) as [fee | text];
    [| discriminate Hret].
  exists fee. split; [exists account, others; split; [reflexivity | exact Hne] |].
  split; [reflexivity |].
  cbn [truthy]. destruct (Z.eqb_spec price 0); [contradiction | reflexivity].
Qed.

(** X16.  A gas price that is given and is not 0 is the one used: the gas
    price definer is not consulted, so that what it would answer, a failure
    included, changes nothing; and the metadata returned has, for the
    receipt of one of the confirmation signals, the gas fee
    [gasUsed * gasPrice] and the cost [gasUsed * gasPrice + fee], with the
    price that was given. *)
Theorem addHashAndSizeToEthereum_given_gas_price :
  forall (this : SmartContractManager) (definer : reply Z) (contentHash : string)
         (feesParameters : IFeesParameters) (price : Z) (signals : list signal),
    price <> 0 ->
    addHashAndSizeToEthereum (withGasPrice this definer) contentHash feesParameters
      (Some price) signals
    = addHashAndSizeToEthereum this contentHash feesParameters (Some price) signals
    /\
    forall meta : Meta.t,
      result (addHashAndSizeToEthereum (withGasPrice this definer) contentHash
                feesParameters (Some price) signals)
      = Returns meta ->
      exists n receipt fee,
        In (OnConfirmation n receipt) signals /\
        getFeesAmount this (contentSize feesParameters) = Answers fee /\
        Meta.gasFee meta = Some (decimal (Receipt.gasUsed receipt * price)) /\
        Meta.cost meta = Some (decimal (Receipt.gasUsed receipt * price + fee)).
Proof.
  intros this definer contentHash feesParameters price signals Hprice.
  assert (Hsame :
            addHashAndSizeToEthereum (withGasPrice this definer) contentHash
              feesParameters (Some price) signals
            = addHashAndSizeToEthereum this contentHash feesParameters
                (Some price) signals).
  { unfold addHashAndSizeToEthereum, getMainAccount.
    cbn [getAccounts getFeesAmount withGasPrice truthy].
    destruct (Z.eqb_spec price 0) as [| _]; [contradiction |].
    reflexivity. }
  split; [exact Hsame |].
  intros meta Hret. rewrite Hsame in Hret.
  destruct (addHashAndSizeToEthereum_returns_sent this contentHash feesParameters
              price signals meta Hprice Hret) as [fee Hsent].
  rewrite (addHashAndSizeToEthereum_sent this contentHash feesParameters (Some price)
             fee price signals Hsent) in Hret.
  destruct (newSubmission_accountedFor this fee price signals) as [_ [Hresolved _]].
  destruct (submitted (runSignals this fee price newSubmission signals))
    as [| meta0 | e0]; try discriminate.
  injection Hret as ->.
  destruct (Hresolved meta eq_refl) as [n [receipt [blocks [Hconf [_ Hbuilt]]]]].
  exists n, receipt, fee.
  split; [exact Hconf |].
  split; [exact (proj1 (proj2 Hsent)) |].
  unfold createMetaDataOfReceipt in Hbuilt.
  rewrite result_createEthereumMetaData in Hbuilt.
  destruct (getConfirmationNumber _ _) as [conf | text]; [| discriminate].
  destruct (getBlockTimestamp _ _) as [ts | text]; [| discriminate].
  injection Hbuilt as <-. cbn. split; reflexivity.
Qed.

(** A submission with the gas price 20, while the gas price definer fails:
    the receipt's 21000 units of gas cost 420000, and 420100 with the fee
    of 100. *)
Lemma addHashAndSizeToEthereum_given_gas_price_witness :
  exists meta,
    result (addHashAndSizeToEthereum
              (withGasPrice (mockManager getPastEventsMock 0)
                 (Fails "Error: gas station down"))
              hashStr {| contentSize := 29 |} (Some 20)
              [OnConfirmation 1 minedReceipt; MetadataSettled 1 (mockEthereumBlocks 0)])
    = Returns meta /\
    Meta.gasFee meta = Some "420000" /\
    Meta.cost meta = Some "420100" /\
    exists n receipt fee,
      In (OnConfirmation n receipt)
        [OnConfirmation 1 minedReceipt; MetadataSettled 1 (mockEthereumBlocks 0)] /\
      getFeesAmount (mockManager getPastEventsMock 0) (contentSize {| contentSize := 29 |})
      = Answers fee /\
      Meta.gasFee meta = Some (decimal (Receipt.gasUsed receipt * 20)) /\
      Meta.cost meta = Some (decimal (Receipt.gasUsed receipt * 20 + fee)).
Proof.
  eexists. split; [vm_compute; reflexivity |].
  split; [reflexivity |]. split; [reflexivity |].
  apply (proj2 (addHashAndSizeToEthereum_given_gas_price
                  (mockManager getPastEventsMock 0) (Fails "Error: gas station down")
                  hashStr {| contentSize := 29 |} 20
                  [OnConfirmation 1 minedReceipt; MetadataSettled 1 (mockEthereumBlocks 0)]
                  ltac:(discriminate))).
  vm_compute. reflexivity.
Defined.

(* ------------------------------------------------------------------ *)
(** ** The overflow pattern *)

Lemma dropPrefix_app p : forall s r q,
  dropPrefix p s = Some r -> dropPrefix p (s ++ q)%string = Some (r ++ q)%string.
Proof.
  induction p as [| c p IH]; intros s r q H.
  - cbn in *. injection H as <-. reflexivity.
  - destruct s as [| d s]; [discriminate |].
    cbn in *. destruct (Ascii.eqb c d); [apply IH; exact H | discriminate].
Qed.

Lemma dropDigits_app q : forall s,
  dropDigits s <> EmptyString ->
  dropDigits (s ++ q)%string = (dropDigits s ++ q)%string.
Proof.
  induction s as [| c s IH]; intros H; [contradiction H; reflexivity |].
  cbn in *. destruct (isDigit c); [apply IH; exact H | reflexivity].
Qed.

Lemma matchHere_app s q :
  matchHere s = true -> matchHere (s ++ q)%string = true.
Proof.
  unfold matchHere. intros H.
  destruct (dropPrefix "query returned more than " s) as [[| c rest] |] eqn:E;
    try discriminate.
  rewrite (dropPrefix_app _ _ _ q E). cbn [append].
  apply andb_prop in H. destruct H as [Hc H]. rewrite Hc. cbn [andb].
  destruct (dropPrefix " results" (dropDigits rest)) as [r |] eqn:E'; [| discriminate].
  rewrite dropDigits_app by (intros Hnil; rewrite Hnil in E'; discriminate).
  rewrite (dropPrefix_app _ _ _ q E'). reflexivity.
Qed.

Lemma regex_app_r q : forall s,
  MORE_THAN_XXX_RESULTS_REGEX s = true ->
  MORE_THAN_XXX_RESULTS_REGEX (s ++ q)%string = true.
Proof.
  induction s as [| c s IH]; intros H.
  - cbn in H. discriminate.
  - change (MORE_THAN_XXX_RESULTS_REGEX (String c s))
      with (matchHere (String c s) || MORE_THAN_XXX_RESULTS_REGEX s) in H.
    change (MORE_THAN_XXX_RESULTS_REGEX (String c s ++ q)%string)
      with (matchHere (String c s ++ q)%string
            || MORE_THAN_XXX_RESULTS_REGEX (s ++ q)%string).
    apply orb_true_iff in H. apply orb_true_iff.
    destruct H as [H | H]; [left; apply matchHere_app; exact H | right; apply IH; exact H].
Qed.

Lemma regex_app_l s : forall p,
  MORE_THAN_XXX_RESULTS_REGEX s = true ->
  MORE_THAN_XXX_RESULTS_REGEX (p ++ s)%string = true.
Proof.
  induction p as [| c p IH]; intros H; [exact H |].
  change (MORE_THAN_XXX_RESULTS_REGEX (String c p ++ s)%string)
    with (matchHere (String c p ++ s)%string
          || MORE_THAN_XXX_RESULTS_REGEX (p ++ s)%string).
  rewrite (IH H). apply orb_true_r.
Qed.

Lemma dropDigits_allDigits ds rest :
  allDigits ds = true ->
  dropDigits (ds ++ rest)%string = dropDigits rest.
Proof.
  induction ds as [| c ds IH]; intros H; [reflexivity |].
  cbn in *. apply andb_prop in H. destruct H as [Hc H]. rewrite Hc. apply IH. exact H.
Qed.

Lemma regex_matches_count c ds :
  isNonZeroDigit c = true ->
  allDigits ds = true ->
  MORE_THAN_XXX_RESULTS_REGEX
    ("query returned more than " ++ String c ds ++ " results")%string = true.
Proof.
  intros Hc Hds.
  assert (H : matchHere ("query returned more than " ++ String c ds ++ " results")%string
              = true).
  { unfold matchHere. cbn [append dropPrefix Ascii.eqb Bool.eqb].
    rewrite Hc. cbn [andb].
    rewrite (dropDigits_allDigits ds " results" Hds). reflexivity. }
  cbn [append] in *.
  cbn [MORE_THAN_XXX_RESULTS_REGEX]. rewrite H. reflexivity.
Qed.

Lemma nzhead_not_D0 d u : Decimal.nzhead d <> Decimal.D0 u.
Proof. induction d; cbn; try discriminate. exact IHd. Qed.

(** The decimal writing of a positive number has no leading zero. *)
Lemma to_uint_head p :
  match Pos.to_uint p with
  | Decimal.Nil | Decimal.D0 _ => False
  | _ => True
  end.
Proof.
  pose proof (Unsigned.to_of (Pos.to_uint p)) as H.
  rewrite Unsigned.of_to in H. cbn [N.to_uint] in H.
  pose proof (Unsigned.to_uint_nonzero p) as Hnz.
  pose proof (nzhead_not_D0 (Pos.to_uint p)) as Hhead.
  unfold Decimal.unorm in H.
  destruct (Pos.to_uint p) as [| u | u | u | u | u | u | u | u | u | u] eqn:E;
    try exact I.
  - cbn in H. discriminate.
  - destruct (Decimal.nzhead (Decimal.D0 u)) eqn:E'; try discriminate H.
    + injection H as ->. apply Hnz. reflexivity.
    + exact (Hhead _ eq_refl).
Qed.

Lemma string_of_uint_digits d : allDigits (NilEmpty.string_of_uint d) = true.
Proof. induction d; cbn; auto. Qed.

Lemma decimal_positive n :
  0 < n ->
  exists c ds,
    decimal n = String c ds /\ isNonZeroDigit c = true /\ allDigits ds = true.
Proof.
  intros Hn. destruct n as [| p | p]; try lia.
  unfold decimal. cbn [Z.to_int NilZero.string_of_int].
  pose proof (to_uint_head p) as H.
  destruct (Pos.to_uint p) as [| u | u | u | u | u | u | u | u | u | u];
    try contradiction;
    cbn; eexists; eexists; (split; [reflexivity |]); (split; [reflexivity |]);
    apply string_of_uint_digits.
Qed.

Lemma regex_matches_decimal n :
  0 < n ->
  MORE_THAN_XXX_RESULTS_REGEX
    ("query returned more than " ++ decimal n ++ " results")%string = true.
Proof.
  intros Hn. destruct (decimal_positive n Hn) as [c [ds [-> [Hc Hds]]]].
  apply regex_matches_count; assumption.
Qed.

(** X17.  The pattern is searched for anywhere in the text of the error:
    "query returned more than N results" is recognised for every count
    [N >= 1] written in decimal, whatever comes before and after it in the
    text. *)
Theorem MORE_THAN_XXX_RESULTS_REGEX_matches_every_count :
  forall (n : Z) (before after : string),
    0 < n ->
    MORE_THAN_XXX_RESULTS_REGEX
      (before ++ ("query returned more than " ++ decimal n ++ " results") ++ after)%string
    = true.
Proof.
  intros n before after Hn.
  apply regex_app_l, regex_app_r, regex_matches_decimal. exact Hn.
Qed.

Lemma MORE_THAN_XXX_RESULTS_REGEX_matches_every_count_witness :
  MORE_THAN_XXX_RESULTS_REGEX
    ("Error: " ++ ("query returned more than " ++ decimal 8991 ++ " results")
     ++ " (retried 5 times)")%string
  = true.
Proof.
  apply (MORE_THAN_XXX_RESULTS_REGEX_matches_every_count 8991 "Error: "
           " (retried 5 times)").
  lia.
Defined.

(* ------------------------------------------------------------------ *)
(** ** The provider of the tests, for every configuration *)

Lemma blocksBetween_empty a b : b < a -> blocksBetween a b = [].
Proof.
  intros H. unfold blocksBetween.
  replace (Z.to_nat (b - a + 1)) with 0%nat by lia. reflexivity.
Qed.

Lemma noMoreThan1000_answersOrOverflows txPerBlock creationBlock :
  answersOrOverflows
    (mockManager (noMoreThan1000ResultsGetPastEventsMock txPerBlock) creationBlock)
    pastEventsMock.
Proof.
  intros a b. cbn [getPastEvents mockManager].
  unfold noMoreThan1000ResultsGetPastEventsMock.
  set (total := fold_left _ _ 0).
  destruct (Z.gtb_spec total 1000) as [Hgt | Hle].
  - right. eexists. split; [reflexivity |].
    apply (regex_app_l _ "Error: "). apply regex_matches_decimal. lia.
  - left. reflexivity.
Qed.

Lemma noMoreThan1000_answersSingleBlocks txPerBlock creationBlock :
  answersSingleBlocks
    (mockManager (noMoreThan1000ResultsGetPastEventsMock txPerBlock) creationBlock).
Proof.
  intros a b text. cbn [getPastEvents mockManager].
  unfold noMoreThan1000ResultsGetPastEventsMock.
  destruct (Z.lt_ge_cases a b) as [Hlt | Hge]; [intros _; exact Hlt |].
  rewrite blocksBetween_empty by lia. cbn. discriminate.
Qed.

(** X18.  The test "allows to get hashes and sizes from events on block
    interval with over 1000 results", for every configuration that gives a
    number of results to each of the ten blocks (a missing entry of
    [txPerBlock] would be [undefined] in the source, which the list lookup
    with a default does not follow): whatever these numbers are, the
    retrieval of the blocks 0 to ['latest'] returns the four events of the
    test, in their order. *)
Theorem recursiveGetPastEvents_over_1000_results_every_configuration :
  forall (txPerBlock : list Z) (fuel : nat),
    (10 <= List.length txPerBlock)%nat ->
    (9 < fuel)%nat ->
    result (recursiveGetPastEvents
              (mockManager (noMoreThan1000ResultsGetPastEventsMock txPerBlock) 0)
              fuel 0 (BlockTag "latest"))
    = Returns pastEventsMock.
Proof.
  intros txPerBlock fuel _ Hfuel.
  transitivity (Returns (unlimitedQuery pastEventsMock 0 9)); [| reflexivity].
  apply (retrieval_returns_unlimited_query
           (mockManager (noMoreThan1000ResultsGetPastEventsMock txPerBlock) 0)
           pastEventsMock).
  - exact pastEventsMock_chronological.
  - apply noMoreThan1000_answersOrOverflows.
  - apply noMoreThan1000_answersSingleBlocks.
  - reflexivity.
  - cbn. lia.
Qed.

Lemma recursiveGetPastEvents_over_1000_results_every_configuration_witness :
  result (recursiveGetPastEvents
            (mockManager
               (noMoreThan1000ResultsGetPastEventsMock
                  [5000; 1; 2000; 0; 0; 1001; 3; 3; 3; 3]) 0)
            10 0 (BlockTag "latest"))
  = Returns pastEventsMock.
Proof.
  apply (recursiveGetPastEvents_over_1000_results_every_configuration
           [5000; 1; 2000; 0; 0; 1001; 3; 3; 3; 3] 10).
  - cbn [List.length]. lia.
  - lia.
Defined.

(* ------------------------------------------------------------------ *)
(** ** An upper bound that cannot be resolved *)

Lemma rangeQueries_getBlockNumberFromNumberOrString this block :
  rangeQueries (trace (getBlockNumberFromNumberOrString this block)) = [].
Proof.
  destruct block as [n | describer]; [reflexivity |].
  rewrite getBlockNumberFromNumberOrString_tag. reflexivity.
Qed.

(** X19.  When the upper bound cannot be resolved to a block number,
    [getHashesAndSizesFromEvents] throws the error of the resolution and
    issues no range query at all. *)
Theorem getHashesAndSizesFromEvents_unresolved_upper_bound :
  forall (this : SmartContractManager) (fuel : nat) (fromBlock : Z)
         (toBlock : option NumberOrString) (e : error),
    result (getBlockNumberFromNumberOrString this (orLatest toBlock)) = Throws e ->
    result (getHashesAndSizesFromEvents this (S fuel) fromBlock toBlock) = Throws e /\
    rangeQueries (trace (getHashesAndSizesFromEvents this (S fuel) fromBlock toBlock))
    = [].
Proof.
  intros this fuel fromBlock toBlock e Hres.
  unfold getHashesAndSizesFromEvents.
  set (start := if fromBlock <? creationBlockNumberHashStorage this
                then creationBlockNumberHashStorage this else fromBlock).
  rewrite (recursiveGetPastEvents_unresolved this fuel start (orLatest toBlock) e Hres).
  cbn [bind result trace fst snd]. split; [reflexivity |].
  apply rangeQueries_getBlockNumberFromNumberOrString.
Qed.

Lemma getHashesAndSizesFromEvents_unresolved_upper_bound_witness :
  result (getHashesAndSizesFromEvents (mockManager getPastEventsMock 0) 3 0
            (Some (BlockTag "pending")))
  = Throws (BlockHasNoNumber "pending") /\
  rangeQueries (trace (getHashesAndSizesFromEvents (mockManager getPastEventsMock 0)
                         3 0 (Some (BlockTag "pending"))))
  = [].
Proof.
  apply (getHashesAndSizesFromEvents_unresolved_upper_bound
           (mockManager getPastEventsMock 0) 2 0 (Some (BlockTag "pending"))).
  reflexivity.
Defined.

(* ------------------------------------------------------------------ *)
(** ** Checks of the node and of the contracts *)

(** X20.  [checkEthereumNodeConnection] passes exactly when the node answers
    that it is listening.  A node that answers that it is not listening is
    reported as "Ethereum node is not reachable: Error: Node not listening":
    the error thrown for it is caught with the others, and a failure of the
    call is reported with the same prefix. *)
Theorem checkEthereumNodeConnection_passes_iff :
  forall node : NodeAccess,
    (checkEthereumNodeConnection node = Answers tt
     <-> isListening node = Answers true) /\
    (isListening node = Answers false ->
     checkEthereumNodeConnection node
     = Fails "Error: Ethereum node is not reachable: Error: Node not listening") /\
    (forall text,
        isListening node = Fails text ->
        checkEthereumNodeConnection node
        = Fails ("Error: Ethereum node is not reachable: " ++ text)%string).
Proof.
  intros node. unfold checkEthereumNodeConnection, catchAndWrap.
  destruct (isListening node) as [[|] | text]; cbn; repeat split;
    intros; try discriminate; try reflexivity; congruence.
Qed.

Lemma checkEthereumNodeConnection_passes_iff_witness :
  checkEthereumNodeConnection
    {| isListening := Answers false;
       isWhitelisted := fun _ => Answers true;
       hashSubmitterAddress := "0xf25186b5081ff5ce73482ad761db0eb0d25abfbf" |}
  = Fails "Error: Ethereum node is not reachable: Error: Node not listening".
Proof.
  apply (proj1 (proj2 (checkEthereumNodeConnection_passes_iff
                         {| isListening := Answers false;
                            isWhitelisted := fun _ => Answers true;
                            hashSubmitterAddress :=
                              "0xf25186b5081ff5ce73482ad761db0eb0d25abfbf" |}))).
  reflexivity.
Defined.

(** X21.  [checkContracts] passes exactly when the storage contract answers
    that the hash submitter is whitelisted and the submitter answers the fee
    of a size of 0.  When the submitter is not whitelisted the check fails
    with "Contracts are not deployed or not well configured", whatever the
    fee lookup would do. *)
Theorem checkContracts_passes_iff :
  forall (this : SmartContractManager) (node : NodeAccess),
    (checkContracts this node = Answers tt
     <-> isWhitelisted node (hashSubmitterAddress node) = Answers true /\
         exists fee, getFeesAmount this 0 = Answers fee) /\
    (isWhitelisted node (hashSubmitterAddress node) = Answers false ->
     checkContracts this node
     = Fails ("Error: Contracts are not deployed or not well configured: "
              ++ "Error: The hash submitter not whitelisted in request Hash Storage contract")%string) /\
    (forall text,
        isWhitelisted node (hashSubmitterAddress node) = Answers true ->
        getFeesAmount this 0 = Fails text ->
        checkContracts this node
        = Fails ("Error: Contracts are not deployed or not well configured: "
                 ++ text)%string).
Proof.
  intros this node. unfold checkContracts, catchAndWrap.
  destruct (isWhitelisted node (hashSubmitterAddress node)) as [[|] | text]; cbn.
  - destruct (getFeesAmount this 0) as [fee | text]; repeat split;
      intros; try discriminate; try reflexivity; eauto; try congruence.
    + destruct H as [_ [fee H]]. discriminate.
  - repeat split; intros; try discriminate; try reflexivity.
    destruct H as [H _]. discriminate.
  - repeat split; intros; try discriminate.
    destruct H as [H _]. discriminate.
Qed.

Lemma checkContracts_passes_iff_witness :
  checkContracts (mockManager getPastEventsMock 0) mockNode = Answers tt.
Proof.
  apply (proj2 (proj1 (checkContracts_passes_iff
                         (mockManager getPastEventsMock 0) mockNode))).
  split; [reflexivity | eexists; reflexivity].
Defined.
